(** * Point-of-sale cart and checkout: the [POS] component

    A shallow embedding of the sale screen of the shop-billing front end
    (the [POS] React component and the records of [types/index.ts]) and the
    properties of its cart store, totals calculator, barcode lookup and
    checkout handler.

    Numbers.  Every JavaScript [number] is a binary64 float.  Prices are
    fractional and are kept as binary64 values ([float], with the IEEE
    operations of the kernel).  Product ids, stock counts and quantities
    only ever hold integers (ids are the backend's integer keys, a quantity
    starts at 1 and moves by integer steps), which binary64 represents
    exactly below 2^53; they are kept as [Z].

    Strings.  A string is kept as the bytes of its UTF-8 encoding, so
    that the white space [trim] strips beyond ASCII can be told.

    State.  The component's [useState] cells are the fields of [POS].  A
    handler is a function from the state it runs in to the next state and
    the list of effects it performs ([alert], [console.error], HTTP
    requests).  An [async] handler is cut at its [await]: the part that
    runs on the click, and the part that runs when the request settles. *)

From Stdlib Require Import ZArith NArith List String Ascii Bool Lia Floats.
From Stdlib Require DecimalString DecimalZ DecimalPos.
Import ListNotations.

Set Warnings "-inexact-float".

Open Scope string_scope.
Open Scope list_scope.
Open Scope Z_scope.

(** ** Records of [types/index.ts] *)

Module Product.
Record t : Type := mk
  { id : Z;
    name : string;
    price : float;
    stock : Z;
    barcode : option string;
    created_at : string }.
End Product.

Module InvoiceItem.
Record t : Type := mk
  { id : Z;
    product_id : Z;
    quantity : Z;
    unit_price : float;
    product : Product.t }.
End InvoiceItem.

Module Invoice.
Record t : Type := mk
  { id : Z;
    customer_name : string;
    total_amount : float;
    tax_amount : float;
    payment_method : string;
    created_at : string;
    items : list InvoiceItem.t }.
End Invoice.

Module CartItem.
Record t : Type := mk
  { product_id : Z;
    name : string;
    price : float;
    quantity : Z }.

(** [{ ...item, quantity: q }] *)
Definition with_quantity (item : t) (q : Z) : t :=
  mk (product_id item) (name item) (price item) q.
End CartItem.

Module CheckoutRequest.
Record t : Type := mk
  { cart : list CartItem.t;
    customer_name : string;
    payment_method : string }.
End CheckoutRequest.

(** ** Numbers *)

(** The binary64 value of an integer (round to nearest even), as the
    quantity operand of [item.price * item.quantity]. *)
Definition number_of_Z (z : Z) : float :=
  SF2Prim (binary_normalize prec emax z 0 false).

(** ** Cart store

    The bodies of the updater functions passed to [setCart]. *)

Definition has_id (productId : Z) (item : CartItem.t) : bool :=
  CartItem.product_id item =? productId.

(** [addToCart]: the updater [prevCart => ...]. *)
Definition addToCart (prevCart : list CartItem.t) (product : Product.t)
  : list CartItem.t :=
  match find (has_id (Product.id product)) prevCart with
  | Some _existingItem =>
      map (fun item =>
             if has_id (Product.id product) item
             then CartItem.with_quantity item (CartItem.quantity item + 1)
             else item)
          prevCart
  | None =>
      prevCart ++
      [ CartItem.mk (Product.id product) (Product.name product)
                    (Product.price product) 1 ]
  end.

(** [updateQuantity]: the updater [prevCart => ...]. *)
Definition updateQuantity (prevCart : list CartItem.t) (productId change : Z)
  : list CartItem.t :=
  match find (has_id productId) prevCart with
  | None => prevCart
  | Some item =>
      let newQuantity := CartItem.quantity item + change in
      if newQuantity <=? 0
      then filter (fun item => negb (has_id productId item)) prevCart
      else map (fun item =>
                  if has_id productId item
                  then CartItem.with_quantity item newQuantity
                  else item)
               prevCart
  end.

(** [removeFromCart]: the updater [prevCart => ...]. *)
Definition removeFromCart (prevCart : list CartItem.t) (productId : Z)
  : list CartItem.t :=
  filter (fun item => negb (has_id productId item)) prevCart.

(** [clearCart] on the cart of the current render; [confirmed] is the
    operator's answer to [window.confirm], asked only when the cart is not
    empty. *)
Definition clearCart (cart : list CartItem.t) (confirmed : bool)
  : list CartItem.t :=
  if (0 <? List.length cart)%nat && confirmed then [] else cart.

(** ** Totals calculator *)

Record Totals : Type := mkTotals
  { subtotal : float;
    tax : float;
    total : float }.

Definition taxRate : float := 0.08%float.

(** [calculateTotals] *)
Definition calculateTotals (cart : list CartItem.t) : Totals :=
  let subtotal :=
    fold_left
      (fun sum item =>
         (sum + CartItem.price item * number_of_Z (CartItem.quantity item))%float)
      cart 0%float in
  let tax := (subtotal * taxRate)%float in
  let total := (subtotal + tax)%float in
  mkTotals subtotal tax total.

(** ** The backend as seen by the component *)

Definition API_BASE : string := "http://localhost:8000".

(** What the handlers read of an HTTP error response: [response.status]
    and [response.data?.detail], the message string the backend puts in the
    body of a refusal ([None] when the body has no [detail]). *)
Module AxiosResponse.
Record t : Type := mk
  { status : Z;
    detail : option string }.
End AxiosResponse.

(** The value caught by [catch (error: unknown)], by the three cases the
    handlers tell apart: [axios.isAxiosError(error)] (with
    [error.response] undefined when no response arrived),
    [error instanceof Error], and anything else. *)
Inductive thrown : Type :=
| AxiosError (response : option AxiosResponse.t) (message : string)
| PlainError (message : string)
| OtherValue.

(** How an awaited request settles. *)
Inductive settled (A : Type) : Type :=
| resolved (data : A)
| rejected (error : thrown).
Arguments resolved {A} data.
Arguments rejected {A} error.

Inductive effect : Type :=
| alert (message : string)
| console_error (label : string) (error : thrown)
| window_confirm (message : string)
| focus_barcode
| axios_get (url : string)
| axios_post (url : string) (data : CheckoutRequest.t).

(** ** JavaScript strings *)

(** A string is truthy when it is not empty. *)
Definition truthy (s : string) : bool := negb (s =? "")%string.

(** [a || b] where [a] may be [undefined]. *)
Definition js_or (a : option string) (b : string) : string :=
  match a with
  | Some s => if truthy s then s else b
  | None => b
  end.

(** A string is kept as the bytes of its UTF-8 encoding.  The characters
    [trim] strips are ECMAScript's WhiteSpace and LineTerminator: U+0009 to
    U+000D and U+0020 (one byte each), U+00A0 (two bytes), and U+1680,
    U+2000 to U+200A, U+2028, U+2029, U+202F, U+205F, U+3000 and U+FEFF
    (three bytes each). *)
Definition white_space1 (a : ascii) : bool :=
  let x := N_of_ascii a in
  ((9 <=? x) && (x <=? 13) || (x =? 32))%N.

Definition white_space2 (a b : ascii) : bool :=
  ((N_of_ascii a =? 194) && (N_of_ascii b =? 160))%N.

Definition white_space3 (a b c : ascii) : bool :=
  let x := N_of_ascii a in
  let y := N_of_ascii b in
  let z := N_of_ascii c in
  ((x =? 225) && (y =? 154) && (z =? 128)
   || (x =? 226) && (y =? 128)
      && ((128 <=? z) && (z <=? 138) || (z =? 168) || (z =? 169) || (z =? 175))
   || (x =? 226) && (y =? 129) && (z =? 159)
   || (x =? 227) && (y =? 128) && (z =? 128)
   || (x =? 239) && (y =? 187) && (z =? 191))%N.

(** [s.trimStart()] *)
Fixpoint trimStart (s : string) : string :=
  match s with
  | EmptyString => s
  | String a s1 =>
      if white_space1 a then trimStart s1
      else
        match s1 with
        | EmptyString => s
        | String b s2 =>
            if white_space2 a b then trimStart s2
            else
              match s2 with
              | EmptyString => s
              | String c s3 =>
                  if white_space3 a b c then trimStart s3 else s
              end
        end
  end.

(** [s.trimEnd()] on the bytes of [s] taken from the last to the first. *)
Fixpoint trimEnd_reversed (s : string) : string :=
  match s with
  | EmptyString => s
  | String a s1 =>
      if white_space1 a then trimEnd_reversed s1
      else
        match s1 with
        | EmptyString => s
        | String b s2 =>
            if white_space2 b a then trimEnd_reversed s2
            else
              match s2 with
              | EmptyString => s
              | String c s3 =>
                  if white_space3 c b a then trimEnd_reversed s3 else s
              end
        end
  end.

Fixpoint reverse (acc s : string) : string :=
  match s with
  | String c rest => reverse (String c acc) rest
  | EmptyString => acc
  end.

(** [s.trim()] *)
Definition trim (s : string) : string :=
  reverse "" (trimEnd_reversed (reverse "" (trimStart s))).

(** ** Component state *)

Record POS : Type := mkPOS
  { products : list Product.t;
    cart : list CartItem.t;
    customerName : string;
    paymentMethod : string;
    barcodeInput : string;
    showReceipt : bool;
    currentInvoice : option Invoice.t }.

(** The [useState] initial values. *)
Definition initial : POS :=
  {| products := [];
     cart := [];
     customerName := "Walk-in Customer";
     paymentMethod := "cash";
     barcodeInput := "";
     showReceipt := false;
     currentInvoice := None |}.

Definition setProducts (v : list Product.t) (st : POS) : POS :=
  mkPOS v (cart st) (customerName st) (paymentMethod st) (barcodeInput st)
        (showReceipt st) (currentInvoice st).

Definition setCart (f : list CartItem.t -> list CartItem.t) (st : POS) : POS :=
  mkPOS (products st) (f (cart st)) (customerName st) (paymentMethod st)
        (barcodeInput st) (showReceipt st) (currentInvoice st).

Definition setCustomerName (v : string) (st : POS) : POS :=
  mkPOS (products st) (cart st) v (paymentMethod st) (barcodeInput st)
        (showReceipt st) (currentInvoice st).

Definition setPaymentMethod (v : string) (st : POS) : POS :=
  mkPOS (products st) (cart st) (customerName st) v (barcodeInput st)
        (showReceipt st) (currentInvoice st).

Definition setBarcodeInput (v : string) (st : POS) : POS :=
  mkPOS (products st) (cart st) (customerName st) (paymentMethod st) v
        (showReceipt st) (currentInvoice st).

Definition setShowReceipt (v : bool) (st : POS) : POS :=
  mkPOS (products st) (cart st) (customerName st) (paymentMethod st)
        (barcodeInput st) v (currentInvoice st).

Definition setCurrentInvoice (v : option Invoice.t) (st : POS) : POS :=
  mkPOS (products st) (cart st) (customerName st) (paymentMethod st)
        (barcodeInput st) (showReceipt st) v.

(** ** Catalog client *)

(** [loadProducts], up to its [await]. *)
Definition loadProducts_request : effect :=
  axios_get (API_BASE ++ "/products")%string.

(** [loadProducts], from its [await] on. *)
Definition loadProducts_settle (st : POS) (r : settled (list Product.t))
  : POS * list effect :=
  match r with
  | resolved data => (setProducts data st, [])
  | rejected error => (st, [console_error "Error loading products:" error])
  end.

(** The message computed in the [catch] of [searchByBarcode]. *)
Definition search_error_message (error : thrown) : string :=
  let errorMessage := "Product not found!" in
  match error with
  | AxiosError response message =>
      match response with
      | Some r =>
          if AxiosResponse.status r =? 404
          then "Product not found!"
          else js_or (AxiosResponse.detail r) (js_or (Some message) "Search failed")
      | None => js_or None (js_or (Some message) "Search failed")
      end
  | PlainError message => message
  | OtherValue => errorMessage
  end.

(** [searchByBarcode], up to its [await]: nothing on a blank input, else
    the URL requested. *)
Definition searchByBarcode_request (st : POS) : option string :=
  if negb (truthy (trim (barcodeInput st)))
  then None
  else Some (API_BASE ++ "/products/" ++ barcodeInput st)%string.

(** [searchByBarcode], from its [await] on. *)
Definition searchByBarcode_settle (st : POS) (r : settled Product.t)
  : POS * list effect :=
  match r with
  | resolved data =>
      (setBarcodeInput "" (setCart (fun prevCart => addToCart prevCart data) st),
       [focus_barcode])
  | rejected error =>
      (st, [alert (search_error_message error);
            console_error "Barcode search error:" error])
  end.

(** [searchByBarcode] run to completion against a backend, with no other
    event in between. *)
Definition searchByBarcode (backend : string -> settled Product.t) (st : POS)
  : POS * list effect :=
  match searchByBarcode_request st with
  | None => (st, [])
  | Some url =>
      let (st', effects) := searchByBarcode_settle st (backend url) in
      (st', axios_get url :: effects)
  end.

(** ** Checkout *)

(** The message computed in the [catch] of [processCheckout]. *)
Definition checkout_error_message (error : thrown) : string :=
  let errorMessage := "Checkout failed" in
  match error with
  | AxiosError response message =>
      js_or (match response with
             | Some r => AxiosResponse.detail r
             | None => None
             end)
            (js_or (Some message) "Checkout failed")
  | PlainError message => message
  | OtherValue => errorMessage
  end.

(** [processCheckout], up to its [await]: the empty-cart alert, or the
    request posted. *)
Definition processCheckout_request (st : POS)
  : list effect * option CheckoutRequest.t :=
  if (List.length (cart st) =? 0)%nat
  then ([alert "Cart is empty!"], None)
  else
    let checkoutData :=
      CheckoutRequest.mk (cart st) (customerName st) (paymentMethod st) in
    ([axios_post (API_BASE ++ "/checkout")%string checkoutData],
     Some checkoutData).

(** [processCheckout], from its [await] on, in the state the component
    has when the request settles. *)
Definition processCheckout_settle (st : POS) (r : settled Invoice.t)
  : POS * list effect :=
  match r with
  | resolved data =>
      (setCart (fun _ => [])
         (setShowReceipt true (setCurrentInvoice (Some data) st)),
       [loadProducts_request])
  | rejected error =>
      (st, [console_error "Checkout error:" error;
            alert (checkout_error_message error)])
  end.

(** [processCheckout] run to completion against a backend, with no other
    event in between. *)
Definition processCheckout (backend : CheckoutRequest.t -> settled Invoice.t)
  (st : POS) : POS * list effect :=
  match processCheckout_request st with
  | (effects, None) => (st, effects)
  | (effects, Some checkoutData) =>
      let (st', effects') :=
        processCheckout_settle st (backend checkoutData) in
      (st', effects ++ effects')
  end.

(** ** The component under interleaved events

    A checkout request stays in flight between the click and the moment it
    settles, and the operator can act in between.  The world keeps the
    component state, the checkout requests not yet settled (oldest first)
    and the effects performed so far.  Each handler runs in the state of
    the latest render, which is the current state. *)

Record World : Type := mkWorld
  { pos : POS;
    in_flight : list CheckoutRequest.t;
    log : list effect }.

Inductive event : Type :=
| click_product (product : Product.t)
| click_quantity (productId change : Z)
| click_remove (productId : Z)
| click_clear (confirmed : bool)
| type_customerName (v : string)
| select_paymentMethod (v : string)
| click_checkout
| checkout_settles (r : settled Invoice.t).

Definition step (w : World) (e : event) : World :=
  match e with
  | click_product product =>
      mkWorld (setCart (fun prevCart => addToCart prevCart product) (pos w))
              (in_flight w) (log w)
  | click_quantity productId change =>
      mkWorld (setCart (fun prevCart => updateQuantity prevCart productId change)
                       (pos w))
              (in_flight w) (log w)
  | click_remove productId =>
      mkWorld (setCart (fun prevCart => removeFromCart prevCart productId) (pos w))
              (in_flight w) (log w)
  | click_clear confirmed =>
      let cart := cart (pos w) in
      mkWorld (setCart (fun _ => clearCart cart confirmed) (pos w))
              (in_flight w)
              (log w ++ if (0 <? List.length cart)%nat
                        then [window_confirm "Clear the cart?"] else [])
  | type_customerName v =>
      mkWorld (setCustomerName v (pos w)) (in_flight w) (log w)
  | select_paymentMethod v =>
      mkWorld (setPaymentMethod v (pos w)) (in_flight w) (log w)
  | click_checkout =>
      let (effects, request) := processCheckout_request (pos w) in
      mkWorld (pos w)
              (in_flight w ++ match request with Some d => [d] | None => [] end)
              (log w ++ effects)
  | checkout_settles r =>
      match in_flight w with
      | [] => w
      | _ :: rest =>
          let (st', effects) := processCheckout_settle (pos w) r in
          mkWorld st' rest (log w ++ effects)
      end
  end.

Definition run (w : World) (events : list event) : World :=
  fold_left step events w.

Definition start (st : POS) : World := mkWorld st [] [].

(** ** The sale screen with its barcode field, catalog loads and receipt

    The rest of what the operator and the network can do to the component:
    the mount effect, typing in the barcode field, searching (by the button
    or the Enter key), the settling of a lookup or of a catalog load, and
    closing the receipt.  The screen keeps, beside the world, the lookup
    URLs and the number of catalog loads not yet settled. *)

Record Screen : Type := mkScreen
  { world : World;
    lookups : list string;
    loads : nat }.

Inductive ui_event : Type :=
| mount
| sale (e : event)
| type_barcode (v : string)
| press_key (key : string)
| click_search
| lookup_settles (r : settled Product.t)
| products_settle (r : settled (list Product.t))
| close_receipt.

(** [searchByBarcode] up to its [await], on the screen. *)
Definition begin_search (s : Screen) : Screen :=
  match searchByBarcode_request (pos (world s)) with
  | None => s
  | Some url =>
      mkScreen (mkWorld (pos (world s)) (in_flight (world s))
                        (log (world s) ++ [axios_get url]))
               (lookups s ++ [url]) (loads s)
  end.

(** [handleBarcodeKeyPress] *)
Definition handleBarcodeKeyPress (key : string) (s : Screen) : Screen :=
  if (key =? "Enter")%string then begin_search s else s.

(** The catalog loads an event of the sale starts: one, by the success
    branch of [processCheckout]. *)
Definition loads_started (w : World) (e : event) : nat :=
  match e, in_flight w with
  | checkout_settles (resolved _), _ :: _ => 1
  | _, _ => 0
  end.

Definition ui_step (s : Screen) (e : ui_event) : Screen :=
  let w := world s in
  match e with
  | mount =>
      mkScreen (mkWorld (pos w) (in_flight w)
                        (log w ++ [loadProducts_request; focus_barcode]))
               (lookups s) (S (loads s))
  | sale e' =>
      mkScreen (step w e') (lookups s) (loads s + loads_started w e')
  | type_barcode v =>
      mkScreen (mkWorld (setBarcodeInput v (pos w)) (in_flight w) (log w))
               (lookups s) (loads s)
  | press_key key => handleBarcodeKeyPress key s
  | click_search => begin_search s
  | lookup_settles r =>
      match lookups s with
      | [] => s
      | _ :: rest =>
          let (st', effects) := searchByBarcode_settle (pos w) r in
          mkScreen (mkWorld st' (in_flight w) (log w ++ effects)) rest (loads s)
      end
  | products_settle r =>
      match loads s with
      | O => s
      | S n =>
          let (st', effects) := loadProducts_settle (pos w) r in
          mkScreen (mkWorld st' (in_flight w) (log w ++ effects)) (lookups s) n
      end
  | close_receipt =>
      mkScreen (mkWorld (setShowReceipt false (pos w)) (in_flight w) (log w))
               (lookups s) (loads s)
  end.

Definition ui_run (s : Screen) (events : list ui_event) : Screen :=
  fold_left ui_step events s.

(** The screen before its mount effect has run. *)
Definition opened : Screen := mkScreen (start initial) [] 0.

(** The state of the component on a screen. *)
Definition shown (s : Screen) : POS := pos (world s).


(** ** Back office: the [AdminDashboard] component *)

Module DashboardStats.
Record t : Type := mk
  { total_products : Z;
    low_stock_products : Z;
    total_invoices : Z;
    today_revenue : float;
    total_revenue : float }.
End DashboardStats.

(** The product form; both numeric fields hold what [parseFloat] gave. *)
Module ProductFormData.
Record t : Type := mk
  { name : string;
    price : float;
    stock : float;
    barcode : string }.
End ProductFormData.

Module ActiveTab.
Inductive t : Type := dashboard | products | invoices.
End ActiveTab.

Module Admin.
Record t : Type := mk
  { activeTab : ActiveTab.t;
    stats : DashboardStats.t;
    products : list Product.t;
    invoices : list Invoice.t;
    loading : bool;
    showProductModal : bool;
    editingProduct : option Product.t;
    productForm : ProductFormData.t }.
End Admin.

Inductive admin_effect : Type :=
| prevent_default
| admin_alert (message : string)
| admin_console_error (label : string) (error : thrown)
| admin_confirm (message : string)
| http_get (url : string)
| http_post (url : string) (data : ProductFormData.t)
| http_put (url : string) (data : ProductFormData.t)
| http_delete (url : string).

(** [{ name: '', price: 0, stock: 0, barcode: '' }] *)
Definition blank_form : ProductFormData.t :=
  ProductFormData.mk "" 0%float 0%float "".

(** The [useState] initial values of the back office. *)
Definition admin_initial : Admin.t :=
  Admin.mk ActiveTab.dashboard (DashboardStats.mk 0 0 0 0%float 0%float)
           [] [] true false None blank_form.

Definition setLoading (v : bool) (st : Admin.t) : Admin.t :=
  Admin.mk (Admin.activeTab st) (Admin.stats st) (Admin.products st)
           (Admin.invoices st) v (Admin.showProductModal st)
           (Admin.editingProduct st) (Admin.productForm st).

Definition setShowProductModal (v : bool) (st : Admin.t) : Admin.t :=
  Admin.mk (Admin.activeTab st) (Admin.stats st) (Admin.products st)
           (Admin.invoices st) (Admin.loading st) v
           (Admin.editingProduct st) (Admin.productForm st).

Definition setEditingProduct (v : option Product.t) (st : Admin.t) : Admin.t :=
  Admin.mk (Admin.activeTab st) (Admin.stats st) (Admin.products st)
           (Admin.invoices st) (Admin.loading st) (Admin.showProductModal st)
           v (Admin.productForm st).

Definition setProductForm (f : ProductFormData.t -> ProductFormData.t)
  (st : Admin.t) : Admin.t :=
  Admin.mk (Admin.activeTab st) (Admin.stats st) (Admin.products st)
           (Admin.invoices st) (Admin.loading st) (Admin.showProductModal st)
           (Admin.editingProduct st) (f (Admin.productForm st)).

(** The decimal text of an integer, as a template literal prints an id. *)
Definition string_of_Z (z : Z) : string :=
  DecimalString.NilZero.string_of_int (Z.to_int z).

(** [`${API_BASE}/products/${id}`] *)
Definition product_url (productId : Z) : string :=
  (API_BASE ++ "/products/" ++ string_of_Z productId)%string.

(** [`${API_BASE}/admin/invoices/${id}`] *)
Definition invoice_url (invoiceId : Z) : string :=
  (API_BASE ++ "/admin/invoices/" ++ string_of_Z invoiceId)%string.

(** [x || y] on numbers: 0, -0 and NaN are falsy. *)
Definition number_or (x y : float) : float :=
  if PrimFloat.is_zero x || PrimFloat.is_nan x then y else x.

(** [loadDashboardData] up to its [await], for the tab of the render the
    call comes from: the loading flag and the request. *)
Definition loadDashboardData_request (tab : ActiveTab.t) (st : Admin.t)
  : Admin.t * list admin_effect :=
  (setLoading true st,
   [http_get
      match tab with
      | ActiveTab.dashboard => (API_BASE ++ "/admin/dashboard/stats")%string
      | ActiveTab.products => (API_BASE ++ "/products")%string
      | ActiveTab.invoices => (API_BASE ++ "/admin/invoices")%string
      end]).

(** [resetProductForm] *)
Definition resetProductForm (st : Admin.t) : Admin.t :=
  setProductForm (fun _ => blank_form) (setEditingProduct None st).

(** [handleEditProduct] *)
Definition handleEditProduct (product : Product.t) (st : Admin.t) : Admin.t :=
  setShowProductModal true
    (setProductForm
       (fun _ =>
          ProductFormData.mk (Product.name product) (Product.price product)
                             (number_of_Z (Product.stock product))
                             (js_or (Product.barcode product) ""))
       (setEditingProduct (Some product) st)).

(** [handleProductSubmit] up to its [await]. *)
Definition handleProductSubmit_request (st : Admin.t) : list admin_effect :=
  [prevent_default;
   match Admin.editingProduct st with
   | Some editingProduct =>
       http_put (product_url (Product.id editingProduct)) (Admin.productForm st)
   | None => http_post (API_BASE ++ "/products")%string (Admin.productForm st)
   end].

(** [handleProductSubmit] from its [await] on; [tab] is the active tab of
    the render the submit came from. *)
Definition handleProductSubmit_settle (tab : ActiveTab.t) (st : Admin.t)
  (r : settled Product.t) : Admin.t * list admin_effect :=
  match r with
  | resolved _ =>
      loadDashboardData_request tab
        (setProductForm (fun _ => blank_form)
           (setEditingProduct None (setShowProductModal false st)))
  | rejected error =>
      (st, [admin_console_error "Error saving product:" error;
            admin_alert "Error saving product"])
  end.

(** [handleDeleteProduct] up to its [await]; [confirmed] is the answer to
    [window.confirm]. *)
Definition handleDeleteProduct_request (productId : Z) (confirmed : bool)
  : list admin_effect :=
  admin_confirm "Are you sure you want to delete this product?"
  :: if confirmed then [http_delete (product_url productId)] else [].

(** [handleDeleteInvoice] up to its [await]. *)
Definition handleDeleteInvoice_request (invoiceId : Z) (confirmed : bool)
  : list admin_effect :=
  admin_confirm "Are you sure you want to delete this invoice?"
  :: if confirmed then [http_delete (invoice_url invoiceId)] else [].

Section ProductForm.

(** JavaScript's [parseFloat]. *)
Variable parseFloat : string -> float.

(** [handleInputChange]: the updater [prev => ...] for the input called
    [name]; a name other than the four of the form leaves its fields as
    they are. *)
Definition handleInputChange (name value : string) (prev : ProductFormData.t)
  : ProductFormData.t :=
  if (name =? "price")%string then
    ProductFormData.mk (ProductFormData.name prev)
                       (number_or (parseFloat value) 0%float)
                       (ProductFormData.stock prev)
                       (ProductFormData.barcode prev)
  else if (name =? "stock")%string then
    ProductFormData.mk (ProductFormData.name prev)
                       (ProductFormData.price prev)
                       (number_or (parseFloat value) 0%float)
                       (ProductFormData.barcode prev)
  else if (name =? "name")%string then
    ProductFormData.mk value (ProductFormData.price prev)
                       (ProductFormData.stock prev)
                       (ProductFormData.barcode prev)
  else if (name =? "barcode")%string then
    ProductFormData.mk (ProductFormData.name prev)
                       (ProductFormData.price prev)
                       (ProductFormData.stock prev) value
  else prev.

(** The form after a series of input changes, each a name and a value. *)
Definition type_in (changes : list (string * string))
  (form : ProductFormData.t) : ProductFormData.t :=
  fold_left (fun prev change => handleInputChange (fst change) (snd change) prev)
            changes form.

End ProductForm.

(** ** Vocabulary of the properties *)

Definition ids (c : list CartItem.t) : list Z := map CartItem.product_id c.

(** The line of a product: the first one carrying its id. *)
Definition line_of (productId : Z) (c : list CartItem.t) : option CartItem.t :=
  find (has_id productId) c.

Definition quantities_positive (c : list CartItem.t) : Prop :=
  Forall (fun item => 1 <= CartItem.quantity item) c.

Definition well_formed (c : list CartItem.t) : Prop :=
  NoDup (ids c) /\ quantities_positive c.

(** The lines kept from [before] come first in [after], in their former
    order, and the lines that are new come behind them. *)
Definition order_stable (before after : list CartItem.t) : Prop :=
  exists keep fresh,
    ids after = filter keep (ids before) ++ fresh /\
    Forall (fun i => ~ In i (ids before)) fresh.

Definition is_request (e : effect) : bool :=
  match e with axios_post _ _ | axios_get _ => true | _ => false end.

Definition checkoutData_of (st : POS) : CheckoutRequest.t :=
  CheckoutRequest.mk (cart st) (customerName st) (paymentMethod st).

Definition checkout_url : string := (API_BASE ++ "/checkout")%string.

Definition is_click_product (e : event) : bool :=
  match e with click_product _ => true | _ => false end.


(** The number of units in the cart. *)
Definition units (c : list CartItem.t) : Z :=
  fold_right (fun item n => CartItem.quantity item + n) 0 c.

(** A string made of white space and line terminators only. *)
Inductive Blank : string -> Prop :=
| Blank_empty : Blank ""
| Blank_1 a s : white_space1 a = true -> Blank s -> Blank (String a s)
| Blank_2 a b s :
    white_space2 a b = true -> Blank s -> Blank (String a (String b s))
| Blank_3 a b c s :
    white_space3 a b c = true -> Blank s ->
    Blank (String a (String b (String c s))).

(** The bytes of a string given by their values. *)
Fixpoint bytes (l : list N) : string :=
  match l with
  | n :: rest => String (ascii_of_N n) (bytes rest)
  | [] => EmptyString
  end.



(** Every checkout request among the effects carries at least one line. *)
Definition posts_have_lines (effects : list effect) : Prop :=
  Forall (fun e =>
            match e with
            | axios_post _ data => CheckoutRequest.cart data <> []
            | _ => True
            end) effects.

(** Every checkout request sent so far, settled or not, carries at least
    one line. *)
Definition requests_have_lines (w : World) : Prop :=
  posts_have_lines (log w) /\
  Forall (fun data => CheckoutRequest.cart data <> []) (in_flight w).

(** Events of the sale other than a click on checkout or the settling of
    one. *)
Definition is_edit (e : event) : bool :=
  match e with
  | click_checkout | checkout_settles _ => false
  | _ => true
  end.

(** The customer names typed, in order. *)
Fixpoint names_typed (events : list ui_event) : list string :=
  match events with
  | sale (type_customerName v) :: rest => v :: names_typed rest
  | _ :: rest => names_typed rest
  | [] => []
  end.

(** The payment methods selected, in order. *)
Fixpoint methods_selected (events : list ui_event) : list string :=
  match events with
  | sale (select_paymentMethod v) :: rest => v :: methods_selected rest
  | _ :: rest => methods_selected rest
  | [] => []
  end.

(** ** Data of the scenarios *)

Definition widget_A : Product.t :=
  Product.mk 1 "Widget A" 10.00%float 7 (Some "A-0001") "2024-01-01T00:00:00".

Definition widget_B : Product.t :=
  Product.mk 2 "Widget B" 5.00%float 3 None "2024-01-02T00:00:00".

(** A sale with one line. *)
Definition one_widget : POS :=
  setCart (fun prevCart => addToCart prevCart widget_A) initial.

Definition invoice_1 : Invoice.t :=
  Invoice.mk 1 "Walk-in Customer" 10.8%float 0.8%float "cash"
             "2024-01-03T10:00:00"
             [InvoiceItem.mk 1 1 1 10.00%float widget_A].

(** A backend that accepts every checkout. *)
Definition accepting (_ : CheckoutRequest.t) : settled Invoice.t :=
  resolved invoice_1.

(** The rejection of a checkout for lack of stock. *)
Definition insufficient_stock : thrown :=
  AxiosError
    (Some (AxiosResponse.mk 400 (Some "Insufficient stock for Widget")))
    "Request failed with status code 400".

Definition refusing (_ : CheckoutRequest.t) : settled Invoice.t :=
  rejected insufficient_stock.

(** * Properties *)

(** ** Cart store *)

Section CartLemmas.

Variable productId : Z.

Let bump (f : CartItem.t -> Z) (item : CartItem.t) : CartItem.t :=
  if has_id productId item then CartItem.with_quantity item (f item) else item.

Lemma line_of_None (c : list CartItem.t) :
  line_of productId c = None <-> ~ In productId (ids c).
Proof.
  unfold line_of, has_id. induction c as [| x c IH]; simpl.
  - tauto.
  - destruct (Z.eqb_spec (CartItem.product_id x) productId).
    + split; [discriminate | intros H; exfalso; apply H; now left].
    + rewrite IH. tauto.
Qed.

Lemma line_of_Some (c : list CartItem.t) (line : CartItem.t) :
  line_of productId c = Some line ->
  In line c /\ CartItem.product_id line = productId.
Proof.
  unfold line_of. intros H. apply find_some in H as [Hin Hid].
  split; [assumption | now apply Z.eqb_eq].
Qed.

Lemma ids_bump (f : CartItem.t -> Z) (c : list CartItem.t) :
  ids (map (bump f) c) = ids c.
Proof.
  unfold ids. rewrite map_map. apply map_ext. intros item. unfold bump.
  now destruct (has_id productId item).
Qed.

Lemma bump_absent (f : CartItem.t -> Z) (c : list CartItem.t) :
  ~ In productId (ids c) -> map (bump f) c = c.
Proof.
  induction c as [| x c IH]; simpl; intros H; [reflexivity |].
  unfold bump at 1, has_id.
  destruct (Z.eqb_spec (CartItem.product_id x) productId) as [E | _].
  - exfalso. apply H. now left.
  - f_equal. apply IH. intros Hin. apply H. now right.
Qed.

Lemma line_of_bump (f : CartItem.t -> Z) (c : list CartItem.t) (line : CartItem.t) :
  line_of productId c = Some line ->
  line_of productId (map (bump f) c) = Some (CartItem.with_quantity line (f line)).
Proof.
  unfold line_of. induction c as [| x c IH]; simpl; [discriminate |].
  assert (Hb : has_id productId (bump f x) = has_id productId x).
  { unfold bump. destruct (has_id productId x) eqn:E'; exact E'. }
  rewrite Hb. destruct (has_id productId x) eqn:E.
  - intros [= <-]. unfold bump. now rewrite E.
  - exact IH.
Qed.

Lemma line_of_bump_other (f : CartItem.t -> Z) (c : list CartItem.t) (j : Z) :
  j <> productId -> line_of j (map (bump f) c) = line_of j c.
Proof.
  intros Hj. unfold line_of. induction c as [| x c IH]; simpl; [reflexivity |].
  assert (Hb : has_id j (bump f x) = has_id j x).
  { unfold bump. now destruct (has_id productId x). }
  rewrite Hb. destruct (has_id j x) eqn:E; [| exact IH].
  f_equal. unfold bump. destruct (has_id productId x) eqn:E2; [| reflexivity].
  unfold has_id in E, E2. apply Z.eqb_eq in E, E2. congruence.
Qed.

Lemma ids_without (c : list CartItem.t) :
  ids (filter (fun item => negb (has_id productId item)) c)
  = filter (fun j => negb (j =? productId)) (ids c).
Proof.
  unfold ids, has_id. induction c as [| x c IH]; simpl; [reflexivity |].
  destruct (CartItem.product_id x =? productId); simpl; now rewrite IH.
Qed.

Lemma without_absent (c : list CartItem.t) :
  ~ In productId (ids (filter (fun item => negb (has_id productId item)) c)).
Proof.
  rewrite ids_without, filter_In. intros [_ H].
  now rewrite Z.eqb_refl in H.
Qed.

Lemma quantities_bump (f : CartItem.t -> Z) (c : list CartItem.t) :
  (forall item, In item c -> has_id productId item = true -> 1 <= f item) ->
  quantities_positive c -> quantities_positive (map (bump f) c).
Proof.
  unfold quantities_positive. intros Hf Hc. apply Forall_forall.
  intros y Hy. apply in_map_iff in Hy as [x [<- Hx]].
  unfold bump. destruct (has_id productId x) eqn:E.
  - simpl. now apply Hf.
  - rewrite Forall_forall in Hc. now apply Hc.
Qed.

Lemma quantities_filter (keep : CartItem.t -> bool) (c : list CartItem.t) :
  quantities_positive c -> quantities_positive (filter keep c).
Proof.
  unfold quantities_positive. rewrite !Forall_forall.
  intros H x Hx. apply filter_In in Hx as [Hx _]. now apply H.
Qed.

End CartLemmas.

Lemma filter_all {A : Type} (l : list A) : filter (fun _ => true) l = l.
Proof. induction l as [| x l IH]; simpl; [reflexivity | now rewrite IH]. Qed.

Lemma filter_none {A : Type} (l : list A) : filter (fun _ => false) l = [].
Proof. induction l as [| x l IH]; simpl; [reflexivity | exact IH]. Qed.

Lemma order_stable_same_ids (before after : list CartItem.t) :
  ids after = ids before -> order_stable before after.
Proof.
  intros H. exists (fun _ => true), []. split; [| constructor].
  now rewrite filter_all, app_nil_r.
Qed.

Lemma order_stable_without (productId : Z) (c : list CartItem.t) :
  order_stable c (filter (fun item => negb (has_id productId item)) c).
Proof.
  exists (fun j => negb (j =? productId)), []. split; [| constructor].
  now rewrite app_nil_r, ids_without.
Qed.

(** What [addToCart] does once the line exists. *)
Lemma addToCart_present (c : list CartItem.t) (p : Product.t) (line : CartItem.t) :
  line_of (Product.id p) c = Some line ->
  addToCart c p
  = map (fun item =>
           if has_id (Product.id p) item
           then CartItem.with_quantity item (CartItem.quantity item + 1)
           else item) c.
Proof. unfold addToCart, line_of. now intros ->. Qed.

(** What [addToCart] does while the product has no line. *)
Lemma addToCart_absent (c : list CartItem.t) (p : Product.t) :
  line_of (Product.id p) c = None ->
  addToCart c p
  = c ++ [CartItem.mk (Product.id p) (Product.name p) (Product.price p) 1].
Proof. unfold addToCart, line_of. now intros ->. Qed.

(** Adding again to a cart whose only line for the product is its last. *)
Lemma addToCart_last (c : list CartItem.t) (p : Product.t) (q : Z) :
  ~ In (Product.id p) (ids c) ->
  addToCart
    (c ++ [CartItem.mk (Product.id p) (Product.name p) (Product.price p) q]) p
  = c ++ [CartItem.mk (Product.id p) (Product.name p) (Product.price p) (q + 1)].
Proof.
  intros Hc.
  set (line := CartItem.mk (Product.id p) (Product.name p) (Product.price p) q).
  assert (Hfind : line_of (Product.id p) (c ++ [line]) = Some line).
  { unfold line_of. apply line_of_None in Hc. unfold line_of in Hc.
    induction c as [| x c IH]; simpl in *.
    - unfold has_id. simpl. now rewrite Z.eqb_refl.
    - destruct (has_id (Product.id p) x); [discriminate | now apply IH]. }
  rewrite (addToCart_present _ _ _ Hfind), map_app.
  rewrite (bump_absent _ (fun item => CartItem.quantity item + 1) c Hc).
  simpl. unfold has_id. simpl. now rewrite Z.eqb_refl.
Qed.

Lemma addToCart_repeated (c : list CartItem.t) (p : Product.t) (n : nat) :
  ~ In (Product.id p) (ids c) ->
  Nat.iter (S n) (fun c' => addToCart c' p) c
  = c ++ [CartItem.mk (Product.id p) (Product.name p) (Product.price p)
                      (Z.of_nat (S n))].
Proof.
  intros Hc. induction n as [| n IH].
  - simpl. apply addToCart_absent. now apply line_of_None.
  - change (Nat.iter (S (S n)) (fun c' => addToCart c' p) c)
      with (addToCart (Nat.iter (S n) (fun c' => addToCart c' p) c) p).
    rewrite IH, (addToCart_last c p _ Hc). do 3 f_equal. lia.
Qed.

Lemma filter_has_id_absent (productId : Z) (c : list CartItem.t) :
  ~ In productId (ids c) -> filter (has_id productId) c = [].
Proof.
  induction c as [| x c IH]; simpl; intros H; [reflexivity |].
  unfold has_id at 1.
  destruct (Z.eqb_spec (CartItem.product_id x) productId) as [E | _].
  - exfalso. apply H. now left.
  - apply IH. intros Hin. apply H. now right.
Qed.

(** C4. [addToCart] merges by product id.  When the cart has a line for the
    product, that line's quantity goes up by 1, in place, and nothing else
    changes; when it has none, a line of quantity 1 carrying the product's
    id, name and price is appended.  Hence [n] successive calls ([n >= 1])
    with one product, from a cart with no line for it, leave exactly one
    line for the product, of quantity [n], behind the former lines. *)
Theorem addToCart_merges_by_product (c : list CartItem.t) (p : Product.t) :
  let snapshot q :=
    CartItem.mk (Product.id p) (Product.name p) (Product.price p) q in
  (forall line,
      line_of (Product.id p) c = Some line ->
      line_of (Product.id p) (addToCart c p)
      = Some (CartItem.with_quantity line (CartItem.quantity line + 1)) /\
      ids (addToCart c p) = ids c /\
      List.length (addToCart c p) = List.length c /\
      (forall j, j <> Product.id p -> line_of j (addToCart c p) = line_of j c)) /\
  (line_of (Product.id p) c = None -> addToCart c p = c ++ [snapshot 1]) /\
  (line_of (Product.id p) c = None ->
   forall n, (1 <= n)%nat ->
     let after := Nat.iter n (fun c' => addToCart c' p) c in
     after = c ++ [snapshot (Z.of_nat n)] /\
     filter (has_id (Product.id p)) after = [snapshot (Z.of_nat n)]).
Proof.
  intros snapshot. split; [| split].
  - intros line Hline. rewrite (addToCart_present c p line Hline).
    repeat split.
    + exact (line_of_bump (Product.id p)
               (fun item => CartItem.quantity item + 1) c line Hline).
    + exact (ids_bump (Product.id p) (fun item => CartItem.quantity item + 1) c).
    + apply length_map.
    + intros j Hj.
      exact (line_of_bump_other (Product.id p)
               (fun item => CartItem.quantity item + 1) c j Hj).
  - apply addToCart_absent.
  - intros Hnone n Hn after. apply line_of_None in Hnone.
    destruct n as [| n]; [lia |].
    assert (Hafter : after = c ++ [snapshot (Z.of_nat (S n))])
      by exact (addToCart_repeated c p n Hnone).
    split; [exact Hafter |].
    rewrite Hafter, filter_app, (filter_has_id_absent _ c Hnone).
    simpl. unfold has_id. simpl. now rewrite Z.eqb_refl.
Qed.

(** The three outcomes of [updateQuantity]. *)
Lemma updateQuantity_no_line (c : list CartItem.t) (productId change : Z) :
  line_of productId c = None -> updateQuantity c productId change = c.
Proof. unfold updateQuantity, line_of. now intros ->. Qed.

Lemma updateQuantity_removes (c : list CartItem.t) (productId change : Z)
  (line : CartItem.t) :
  line_of productId c = Some line ->
  CartItem.quantity line + change <= 0 ->
  updateQuantity c productId change
  = filter (fun item => negb (has_id productId item)) c.
Proof.
  unfold updateQuantity, line_of. intros -> H.
  apply Z.leb_le in H. cbv zeta. now rewrite H.
Qed.

Lemma updateQuantity_sets (c : list CartItem.t) (productId change : Z)
  (line : CartItem.t) :
  line_of productId c = Some line ->
  0 < CartItem.quantity line + change ->
  updateQuantity c productId change
  = map (fun item =>
           if has_id productId item
           then CartItem.with_quantity item (CartItem.quantity line + change)
           else item) c.
Proof.
  unfold updateQuantity, line_of. intros -> H.
  apply Z.leb_gt in H. cbv zeta. now rewrite H.
Qed.

Lemma updateQuantity_quantities (c : list CartItem.t) (productId change : Z) :
  quantities_positive c -> quantities_positive (updateQuantity c productId change).
Proof.
  intros Hc. destruct (line_of productId c) as [line |] eqn:Hline.
  - destruct (Z_le_gt_dec (CartItem.quantity line + change) 0) as [Hle | Hgt].
    + rewrite (updateQuantity_removes _ _ _ _ Hline Hle).
      now apply quantities_filter.
    + rewrite (updateQuantity_sets c productId change line Hline ltac:(lia)).
      apply (quantities_bump productId
               (fun _ => CartItem.quantity line + change)); [| exact Hc].
      intros; lia.
  - now rewrite (updateQuantity_no_line _ _ _ Hline).
Qed.

(** C5. [updateQuantity] moves the quantity of the product's line by
    [change].  With no line for the id the cart is returned as it is.  When
    the new quantity is 0 or less the line is removed, not kept at zero;
    otherwise the line stays where it is with the new quantity.  A cart
    whose quantities are all at least 1 stays so, and taking 1 off the only
    line of a cart, of quantity 1, leaves the empty cart. *)
Theorem updateQuantity_changes_or_removes (c : list CartItem.t)
  (productId change : Z) :
  let after := updateQuantity c productId change in
  (line_of productId c = None -> after = c) /\
  (forall line,
      line_of productId c = Some line ->
      let newQuantity := CartItem.quantity line + change in
      (newQuantity <= 0 ->
       after = filter (fun item => negb (has_id productId item)) c /\
       line_of productId after = None /\
       ~ In productId (ids after)) /\
      (0 < newQuantity ->
       line_of productId after
       = Some (CartItem.mk (CartItem.product_id line) (CartItem.name line)
                           (CartItem.price line)
                           (CartItem.quantity line + change)) /\
       ids after = ids c /\
       (forall j, j <> productId -> line_of j after = line_of j c))) /\
  (quantities_positive c -> quantities_positive after) /\
  (forall line,
      CartItem.quantity line = 1 ->
      updateQuantity [line] (CartItem.product_id line) (-1) = []).
Proof.
  intros after. split; [| split; [| split]].
  - apply updateQuantity_no_line.
  - intros line Hline newQuantity. split.
    + intros Hle. unfold after.
      rewrite (updateQuantity_removes _ _ _ _ Hline Hle).
      split; [reflexivity |]. split.
      * apply line_of_None, without_absent.
      * apply without_absent.
    + intros Hgt. unfold after.
      rewrite (updateQuantity_sets _ _ _ _ Hline Hgt). repeat split.
      * exact (line_of_bump productId (fun _ => newQuantity) c line Hline).
      * exact (ids_bump productId (fun _ => newQuantity) c).
      * intros j Hj.
        exact (line_of_bump_other productId (fun _ => newQuantity) c j Hj).
  - apply updateQuantity_quantities.
  - intros line Hq. unfold updateQuantity. simpl.
    unfold has_id. rewrite Z.eqb_refl, Hq. reflexivity.
Qed.

Lemma NoDup_ids_filter (keep : CartItem.t -> bool) (c : list CartItem.t) :
  NoDup (ids c) -> NoDup (ids (filter keep c)).
Proof.
  unfold ids. induction c as [| x c IH]; simpl; intros H; [constructor |].
  inversion H as [| ? ? Hx Hc]; subst.
  destruct (keep x); simpl; [| now apply IH].
  constructor; [| now apply IH].
  intros Hin. apply Hx. apply in_map_iff in Hin as [y [Hy Hin]].
  apply filter_In in Hin as [Hin _]. apply in_map_iff. now exists y.
Qed.

Lemma addToCart_well_formed (c : list CartItem.t) (p : Product.t) :
  well_formed c -> well_formed (addToCart c p).
Proof.
  intros [Hnd Hq]. destruct (line_of (Product.id p) c) as [line |] eqn:Hline.
  - rewrite (addToCart_present _ _ _ Hline). split.
    + now rewrite (ids_bump (Product.id p)
                     (fun item => CartItem.quantity item + 1) c).
    + apply (quantities_bump (Product.id p)
               (fun item => CartItem.quantity item + 1)); [| exact Hq].
      intros item Hin _. unfold quantities_positive in Hq.
      rewrite Forall_forall in Hq. specialize (Hq item Hin). lia.
  - rewrite (addToCart_absent _ _ Hline). apply line_of_None in Hline. split.
    + unfold ids in *. rewrite map_app. simpl.
      apply NoDup_app; [exact Hnd | repeat constructor; intros [] |].
      intros a Ha [<- | []]. now apply Hline.
    + apply Forall_app. split; [exact Hq | repeat constructor; simpl; lia].
Qed.

Lemma updateQuantity_well_formed (c : list CartItem.t) (productId change : Z) :
  well_formed c -> well_formed (updateQuantity c productId change).
Proof.
  intros [Hnd Hq]. split; [| now apply updateQuantity_quantities].
  destruct (line_of productId c) as [line |] eqn:Hline.
  - destruct (Z_le_gt_dec (CartItem.quantity line + change) 0) as [Hle | Hgt].
    + rewrite (updateQuantity_removes _ _ _ _ Hline Hle).
      now apply NoDup_ids_filter.
    + rewrite (updateQuantity_sets c productId change line Hline ltac:(lia)).
      now rewrite (ids_bump productId
                     (fun _ => CartItem.quantity line + change) c).
  - now rewrite (updateQuantity_no_line _ _ _ Hline).
Qed.

Lemma addToCart_order_stable (c : list CartItem.t) (p : Product.t) :
  order_stable c (addToCart c p).
Proof.
  destruct (line_of (Product.id p) c) as [line |] eqn:Hline.
  - apply order_stable_same_ids. rewrite (addToCart_present _ _ _ Hline).
    exact (ids_bump (Product.id p) (fun item => CartItem.quantity item + 1) c).
  - rewrite (addToCart_absent _ _ Hline). apply line_of_None in Hline.
    exists (fun _ => true), [Product.id p]. split.
    + rewrite filter_all. unfold ids. now rewrite map_app.
    + now repeat constructor.
Qed.

Lemma updateQuantity_order_stable (c : list CartItem.t) (productId change : Z) :
  order_stable c (updateQuantity c productId change).
Proof.
  destruct (line_of productId c) as [line |] eqn:Hline.
  - destruct (Z_le_gt_dec (CartItem.quantity line + change) 0) as [Hle | Hgt].
    + rewrite (updateQuantity_removes _ _ _ _ Hline Hle).
      apply order_stable_without.
    + rewrite (updateQuantity_sets c productId change line Hline ltac:(lia)).
      apply order_stable_same_ids.
      exact (ids_bump productId (fun _ => CartItem.quantity line + change) c).
  - rewrite (updateQuantity_no_line _ _ _ Hline).
    now apply order_stable_same_ids.
Qed.

Lemma clearCart_cases (c : list CartItem.t) (confirmed : bool) :
  clearCart c confirmed = [] \/ clearCart c confirmed = c.
Proof.
  unfold clearCart.
  destruct ((0 <? List.length c)%nat && confirmed); [now left | now right].
Qed.

Lemma step_well_formed (w : World) (e : event) :
  well_formed (cart (pos w)) -> well_formed (cart (pos (step w e))).
Proof.
  intros H. destruct e; simpl; try exact H.
  - now apply addToCart_well_formed.
  - now apply updateQuantity_well_formed.
  - destruct H as [Hnd Hq]. split;
      [now apply NoDup_ids_filter | now apply quantities_filter].
  - destruct (clearCart_cases (cart (pos w)) confirmed) as [-> | ->];
      [split; constructor | exact H].
  - destruct (processCheckout_request (pos w)). exact H.
  - destruct (in_flight w); [exact H |].
    destruct r; simpl; [split; constructor | exact H].
Qed.

Lemma run_well_formed (events : list event) (w : World) :
  well_formed (cart (pos w)) -> well_formed (cart (pos (run w events))).
Proof.
  revert w. induction events as [| e events IH]; intros w H; simpl.
  - exact H.
  - apply IH. now apply step_well_formed.
Qed.

(** C6. The cart operations keep a cart well formed (no two lines with one
    product id, every quantity at least 1) and keep the order of its lines:
    [addToCart] appends the line of a product that had none and leaves the
    ids in place otherwise, [updateQuantity] leaves the ids in place when
    the line stays and only drops the line otherwise, [removeFromCart] only
    drops lines, [clearCart] yields the cart itself or the empty cart.  So
    the cart is well formed after every sequence of events from the
    initial state. *)
Theorem cart_operations_preserve_invariants (c : list CartItem.t) :
  well_formed c ->
  (forall p,
      well_formed (addToCart c p) /\ order_stable c (addToCart c p) /\
      (line_of (Product.id p) c = None ->
       exists line, addToCart c p = c ++ [line]) /\
      (line_of (Product.id p) c <> None -> ids (addToCart c p) = ids c)) /\
  (forall productId change,
      well_formed (updateQuantity c productId change) /\
      order_stable c (updateQuantity c productId change) /\
      (forall line,
          line_of productId c = Some line ->
          0 < CartItem.quantity line + change ->
          ids (updateQuantity c productId change) = ids c)) /\
  (forall productId,
      well_formed (removeFromCart c productId) /\
      order_stable c (removeFromCart c productId)) /\
  (forall confirmed,
      well_formed (clearCart c confirmed) /\
      order_stable c (clearCart c confirmed)) /\
  (forall w events,
      cart (pos w) = c -> well_formed (cart (pos (run w events)))).
Proof.
  intros Hc. split; [| split; [| split; [| split]]].
  - intros p. split; [now apply addToCart_well_formed |].
    split; [apply addToCart_order_stable |]. split.
    + intros Hnone. eexists. now apply addToCart_absent.
    + destruct (line_of (Product.id p) c) as [line |] eqn:Hline;
        [intros _ | congruence].
      rewrite (addToCart_present _ _ _ Hline).
      exact (ids_bump (Product.id p) (fun item => CartItem.quantity item + 1) c).
  - intros productId change.
    split; [now apply updateQuantity_well_formed |].
    split; [apply updateQuantity_order_stable |].
    intros line Hline Hgt. rewrite (updateQuantity_sets _ _ _ _ Hline Hgt).
    exact (ids_bump productId (fun _ => CartItem.quantity line + change) c).
  - intros productId. destruct Hc as [Hnd Hq]. split; [split |].
    + now apply NoDup_ids_filter.
    + now apply quantities_filter.
    + apply order_stable_without.
  - intros confirmed.
    destruct (clearCart_cases c confirmed) as [-> | ->].
    + split; [split; constructor |].
      exists (fun _ => false), []. split; [| constructor].
      now rewrite filter_none.
    + split; [exact Hc | now apply order_stable_same_ids].
  - intros w events <-. now apply run_well_formed.
Qed.

Lemma cart_operations_preserve_invariants_witness :
  well_formed (cart one_widget) /\
  well_formed (addToCart (cart one_widget) widget_B) /\
  order_stable (cart one_widget) (addToCart (cart one_widget) widget_B).
Proof.
  assert (H : well_formed (cart one_widget)).
  { split.
    - apply NoDup_cons; [intros [] | apply NoDup_nil].
    - apply Forall_cons; [simpl; lia | apply Forall_nil]. }
  split; [exact H |].
  destruct (cart_operations_preserve_invariants (cart one_widget) H)
    as [Hadd _].
  destruct (Hadd widget_B) as [Hwf [Hos _]]. split; assumption.
Defined.

(** ** Totals calculator *)

(** Binary64 at work: one line of 0.1 and one of 0.2 do not add up to 0.3. *)
Example subtotal_is_binary64 :
  subtotal (calculateTotals [CartItem.mk 1 "a" 0.1%float 1;
                             CartItem.mk 2 "b" 0.2%float 1])
  = 0.30000000000000004%float.
Proof. vm_compute. reflexivity. Qed.

(** C7. [calculateTotals]: the subtotal is the sum, taken in line order
    from 0, of price times quantity; the tax is the subtotal times 0.08;
    the total is the subtotal plus the tax, all in binary64 arithmetic.
    For a cart built by adding a product priced 10.00 twice and one priced
    5.00 once the subtotal is 25, the tax 2 and the total 27. *)
Theorem calculateTotals_sums_lines :
  subtotal (calculateTotals []) = 0%float /\
  (forall c item,
      subtotal (calculateTotals (c ++ [item]))
      = (subtotal (calculateTotals c)
         + CartItem.price item * number_of_Z (CartItem.quantity item))%float) /\
  (forall c,
      tax (calculateTotals c) = (subtotal (calculateTotals c) * 0.08)%float /\
      total (calculateTotals c)
      = (subtotal (calculateTotals c) + tax (calculateTotals c))%float) /\
  calculateTotals
    (addToCart (addToCart (addToCart [] widget_A) widget_A) widget_B)
  = mkTotals 25.00%float 2.00%float 27.00%float.
Proof.
  split; [reflexivity |]. split; [| split].
  - intros c item. unfold calculateTotals. simpl.
    now rewrite fold_left_app.
  - intros c. split; reflexivity.
  - vm_compute. reflexivity.
Qed.

(** ** Checkout *)

Lemma processCheckout_request_empty (st : POS) :
  cart st = [] -> processCheckout_request st = ([alert "Cart is empty!"], None).
Proof. unfold processCheckout_request. now intros ->. Qed.

Lemma processCheckout_request_nonempty (st : POS) :
  cart st <> [] ->
  processCheckout_request st
  = ([axios_post checkout_url (checkoutData_of st)], Some (checkoutData_of st)).
Proof.
  unfold processCheckout_request. destruct (cart st) eqn:E; [congruence |].
  intros _. unfold checkoutData_of. now rewrite E.
Qed.

Lemma processCheckout_resolved (backend : CheckoutRequest.t -> settled Invoice.t)
  (st : POS) (invoice : Invoice.t) :
  cart st <> [] ->
  backend (checkoutData_of st) = resolved invoice ->
  processCheckout backend st
  = (mkPOS (products st) [] (customerName st) (paymentMethod st)
           (barcodeInput st) true (Some invoice),
     [axios_post checkout_url (checkoutData_of st); loadProducts_request]).
Proof.
  intros Hc Hb. unfold processCheckout.
  now rewrite (processCheckout_request_nonempty st Hc), Hb.
Qed.

Lemma processCheckout_rejected (backend : CheckoutRequest.t -> settled Invoice.t)
  (st : POS) (error : thrown) :
  cart st <> [] ->
  backend (checkoutData_of st) = rejected error ->
  processCheckout backend st
  = (st,
     [axios_post checkout_url (checkoutData_of st);
      console_error "Checkout error:" error;
      alert (checkout_error_message error)]).
Proof.
  intros Hc Hb. unfold processCheckout.
  now rewrite (processCheckout_request_nonempty st Hc), Hb.
Qed.

Lemma step_keeps_empty_cart (w : World) (e : event) :
  is_click_product e = false ->
  cart (pos w) = [] -> cart (pos (step w e)) = [].
Proof.
  intros He Hc. destruct e; simpl in *; try discriminate; try exact Hc.
  - now rewrite Hc.
  - now rewrite Hc.
  - now rewrite Hc.
  - destruct (processCheckout_request (pos w)). exact Hc.
  - destruct (in_flight w); [exact Hc |]. now destruct r.
Qed.

Lemma run_keeps_empty_cart (events : list event) (w : World) :
  forallb (fun e => negb (is_click_product e)) events = true ->
  cart (pos w) = [] -> cart (pos (run w events)) = [].
Proof.
  revert w. induction events as [| e events IH]; intros w He Hc; simpl in *.
  - exact Hc.
  - apply andb_prop in He as [He1 He2]. apply IH; [exact He2 |].
    apply step_keeps_empty_cart; [| exact Hc].
    now destruct (is_click_product e).
Qed.

(** C3. On an empty cart [processCheckout] only alerts 'Cart is empty!':
    whatever the backend would answer, no request is made and the state,
    the cart included, is the one before. *)
Theorem processCheckout_empty_cart
  (backend : CheckoutRequest.t -> settled Invoice.t) (st : POS) :
  cart st = [] ->
  processCheckout backend st = (st, [alert "Cart is empty!"]) /\
  filter is_request (snd (processCheckout backend st)) = [] /\
  cart (fst (processCheckout backend st)) = cart st /\
  (forall w, pos w = st ->
     in_flight (step w click_checkout) = in_flight w /\
     log (step w click_checkout) = log w ++ [alert "Cart is empty!"]).
Proof.
  intros Hc.
  assert (H : processCheckout backend st = (st, [alert "Cart is empty!"])).
  { unfold processCheckout. now rewrite (processCheckout_request_empty st Hc). }
  rewrite H. split; [reflexivity |]. split; [reflexivity |].
  split; [reflexivity |].
  intros w <-. simpl.
  rewrite (processCheckout_request_empty (pos w) Hc). simpl.
  now rewrite app_nil_r.
Qed.

Lemma processCheckout_empty_cart_witness :
  cart initial = [] /\
  processCheckout accepting initial = (initial, [alert "Cart is empty!"]).
Proof.
  split; [reflexivity |].
  exact (proj1 (processCheckout_empty_cart accepting initial eq_refl)).
Defined.

(** C1. A checkout on a non-empty cart empties the cart and fetches the
    catalog again, by a GET of /products, exactly when the backend answers
    with an invoice: the effects are then the POST of the cart and that
    GET.  The click alone leaves the cart as it is, and so does a
    rejection; once the invoice has arrived the cart is empty, and as long
    as no product is added a further checkout only alerts 'Cart is
    empty!'. *)
Theorem processCheckout_clears_on_confirmation
  (backend : CheckoutRequest.t -> settled Invoice.t) (st : POS) :
  cart st <> [] ->
  let after := fst (processCheckout backend st) in
  let effects := snd (processCheckout backend st) in
  ((exists invoice, backend (checkoutData_of st) = resolved invoice)
   <-> cart after = []) /\
  ((exists invoice, backend (checkoutData_of st) = resolved invoice)
   <-> In (axios_get "http://localhost:8000/products") effects) /\
  ((forall invoice, backend (checkoutData_of st) <> resolved invoice)
   -> cart after = cart st) /\
  (forall w, cart (pos (step w click_checkout)) = cart (pos w)) /\
  (forall w error,
      cart (pos (step w (checkout_settles (rejected error)))) = cart (pos w)) /\
  (forall w invoice,
      in_flight w <> [] ->
      cart (pos (step w (checkout_settles (resolved invoice)))) = [] /\
      log (step w (checkout_settles (resolved invoice)))
      = log w ++ [axios_get "http://localhost:8000/products"]) /\
  (forall invoice,
      backend (checkoutData_of st) = resolved invoice ->
      cart after = [] /\
      effects
      = [axios_post "http://localhost:8000/checkout"
           (CheckoutRequest.mk (cart st) (customerName st) (paymentMethod st));
         axios_get "http://localhost:8000/products"] /\
      (forall backend',
          processCheckout backend' after = (after, [alert "Cart is empty!"])) /\
      (forall events,
          forallb (fun e => negb (is_click_product e)) events = true ->
          let w := run (start after) events in
          log (step w click_checkout) = log w ++ [alert "Cart is empty!"] /\
          in_flight (step w click_checkout) = in_flight w)).
Proof.
  intros Hc after effects.
  destruct (backend (checkoutData_of st)) as [invoice | error] eqn:Hb.
  - pose proof (processCheckout_resolved backend st invoice Hc Hb) as H.
    assert (Hafter : cart after = []) by (unfold after; now rewrite H).
    assert (Heffects :
              effects
              = [axios_post "http://localhost:8000/checkout"
                   (CheckoutRequest.mk (cart st) (customerName st)
                                       (paymentMethod st));
                 axios_get "http://localhost:8000/products"])
      by (unfold effects; now rewrite H).
    split; [split; [intros _; exact Hafter | intros _; now exists invoice] |].
    split; [split; [intros _; rewrite Heffects; now right; left
                   | intros _; now exists invoice] |].
    split; [intros Hno; now destruct (Hno invoice) |].
    split; [intros w; simpl; now destruct (processCheckout_request (pos w)) |].
    split; [intros w e; simpl; now destruct (in_flight w) |].
    split; [intros w i Hw; simpl; now destruct (in_flight w) |].
    intros invoice' _. split; [exact Hafter |]. split; [exact Heffects |].
    split.
    + intros backend'. unfold processCheckout.
      now rewrite (processCheckout_request_empty after Hafter).
    + intros events Hev w.
      assert (Hw : cart (pos w) = [])
        by (apply run_keeps_empty_cart; [exact Hev | exact Hafter]).
      simpl. rewrite (processCheckout_request_empty (pos w) Hw). simpl.
      now rewrite app_nil_r.
  - pose proof (processCheckout_rejected backend st error Hc Hb) as H.
    assert (Hafter : cart after = cart st) by (unfold after; now rewrite H).
    split.
    { split; [intros [invoice [=]] | intros E; congruence]. }
    split.
    { split; [intros [invoice [=]] |].
      unfold effects. rewrite H.
      intros [[=] | [[=] | [[=] | []]]]. }
    split; [intros _; exact Hafter |].
    split; [intros w; simpl; now destruct (processCheckout_request (pos w)) |].
    split; [intros w e; simpl; now destruct (in_flight w) |].
    split; [intros w i Hw; simpl; now destruct (in_flight w) |].
    intros invoice [=].
Qed.

Lemma processCheckout_clears_on_confirmation_witness :
  cart one_widget <> [] /\
  cart (fst (processCheckout accepting one_widget)) = [].
Proof.
  assert (H : cart one_widget <> []) by discriminate.
  split; [exact H |].
  pose proof (processCheckout_clears_on_confirmation accepting one_widget H)
    as T.
  cbv zeta in T. destruct T as [[T _] _]. apply T.
  exists invoice_1. reflexivity.
Defined.

Lemma truthy_nonempty (s : string) : s <> "" -> truthy s = true.
Proof.
  intros H. unfold truthy. apply negb_true_iff. now apply String.eqb_neq.
Qed.

Lemma js_or_present (s fallback : string) :
  s <> "" -> js_or (Some s) fallback = s.
Proof. intros H. unfold js_or. now rewrite (truthy_nonempty s H). Qed.

Lemma js_or_absent (a : option string) (fallback : string) :
  a = None \/ a = Some "" -> js_or a fallback = fallback.
Proof. now intros [-> | ->]. Qed.

(** C2. A rejected checkout leaves the whole state, the cart included, as
    it was and alerts one message.  For a failure reported by the HTTP
    client the message is the [detail] of the response body when there is
    one and it is not empty, else the client's own error message when that
    is not empty, else 'Checkout failed'.  (A caught [Error] of another
    kind is reported by its message, any other value as 'Checkout
    failed'.)  The request is no longer in flight afterwards. *)
Theorem processCheckout_rejection_keeps_cart
  (backend : CheckoutRequest.t -> settled Invoice.t) (st : POS) (error : thrown) :
  cart st <> [] ->
  backend (checkoutData_of st) = rejected error ->
  fst (processCheckout backend st) = st /\
  snd (processCheckout backend st)
  = [axios_post checkout_url (checkoutData_of st);
     console_error "Checkout error:" error;
     alert (checkout_error_message error)] /\
  (forall response message,
      error = AxiosError response message ->
      let detail :=
        match response with
        | Some r => AxiosResponse.detail r
        | None => None
        end in
      (forall d, detail = Some d -> d <> "" -> checkout_error_message error = d) /\
      (detail = None \/ detail = Some "" ->
       message <> "" -> checkout_error_message error = message) /\
      (detail = None \/ detail = Some "" ->
       message = "" -> checkout_error_message error = "Checkout failed")) /\
  (forall message,
      error = PlainError message -> checkout_error_message error = message) /\
  (error = OtherValue -> checkout_error_message error = "Checkout failed") /\
  (forall w,
      pos w = st -> in_flight w = [] ->
      let w' := run w [click_checkout; checkout_settles (rejected error)] in
      pos w' = st /\ in_flight w' = []).
Proof.
  intros Hc Hb.
  rewrite (processCheckout_rejected backend st error Hc Hb).
  split; [reflexivity |]. split; [reflexivity |]. split.
  - intros response message -> detail. simpl. fold detail. split; [| split].
    + intros d -> Hd. now apply js_or_present.
    + intros Hdetail Hm. rewrite (js_or_absent detail _ Hdetail).
      now apply js_or_present.
    + intros Hdetail ->. now rewrite (js_or_absent detail _ Hdetail).
  - split; [now intros message -> |]. split; [now intros -> |].
    intros w <- Hw. simpl.
    rewrite (processCheckout_request_nonempty (pos w) Hc). simpl.
    rewrite Hw. simpl. split; reflexivity.
Qed.

Lemma processCheckout_rejection_keeps_cart_witness :
  cart one_widget <> [] /\
  refusing (checkoutData_of one_widget) = rejected insufficient_stock /\
  fst (processCheckout refusing one_widget) = one_widget /\
  checkout_error_message insufficient_stock = "Insufficient stock for Widget".
Proof.
  assert (H : cart one_widget <> []) by discriminate.
  split; [exact H |]. split; [reflexivity |].
  destruct (processCheckout_rejection_keeps_cart
              refusing one_widget insufficient_stock H eq_refl)
    as [Hst [_ [Hmsg _]]].
  split; [exact Hst |].
  destruct (Hmsg _ _ eq_refl) as [Hdetail _].
  apply Hdetail; [reflexivity | discriminate].
Defined.

Lemma step_click_checkout (w : World) :
  step w click_checkout
  = if (List.length (cart (pos w)) =? 0)%nat
    then mkWorld (pos w) (in_flight w) (log w ++ [alert "Cart is empty!"])
    else mkWorld (pos w)
                 (in_flight w ++ [checkoutData_of (pos w)])
                 (log w ++ [axios_post checkout_url (checkoutData_of (pos w))]).
Proof.
  simpl. unfold processCheckout_request.
  destruct (List.length (cart (pos w)) =? 0)%nat.
  - now rewrite app_nil_r.
  - reflexivity.
Qed.

Lemma repeated_clicks_post_each (n : nat) (w : World) :
  cart (pos w) <> [] ->
  run w (repeat click_checkout n)
  = mkWorld (pos w)
            (in_flight w ++ repeat (checkoutData_of (pos w)) n)
            (log w ++ repeat (axios_post checkout_url (checkoutData_of (pos w))) n).
Proof.
  revert w. induction n as [| n IH]; intros w Hc.
  - destruct w. simpl. now rewrite !app_nil_r.
  - change (run w (repeat click_checkout (S n)))
      with (run (step w click_checkout) (repeat click_checkout n)).
    rewrite step_click_checkout.
    destruct (List.length (cart (pos w)) =? 0)%nat eqn:E.
    + apply Nat.eqb_eq, length_zero_iff_nil in E. contradiction.
    + rewrite IH by exact Hc. simpl. now rewrite <- !app_assoc.
Qed.

(** C8, as the component has it.  The click handler of the checkout button
    does not look at the requests in flight: with an empty cart it alerts
    'Cart is empty!' and sends nothing, with any other cart it posts the
    current cart, customer name and payment method, whether or not an
    earlier checkout is still unsettled.  So [n] clicks in a row on a cart
    that is not empty post the same request [n] times. *)
Theorem checkout_click_ignores_in_flight (w : World) :
  step w click_checkout
  = (if (List.length (cart (pos w)) =? 0)%nat
     then mkWorld (pos w) (in_flight w) (log w ++ [alert "Cart is empty!"])
     else mkWorld (pos w)
                  (in_flight w ++ [checkoutData_of (pos w)])
                  (log w ++ [axios_post checkout_url (checkoutData_of (pos w))])) /\
  (forall n,
      cart (pos w) <> [] ->
      run w (repeat click_checkout n)
      = mkWorld (pos w)
                (in_flight w ++ repeat (checkoutData_of (pos w)) n)
                (log w ++ repeat (axios_post checkout_url
                                             (checkoutData_of (pos w))) n)).
Proof.
  split.
  - apply step_click_checkout.
  - intros n Hc. now apply repeated_clicks_post_each.
Qed.

(** C8, as stated, fails: with one checkout of a one-line cart still in
    flight, a second click on the checkout button posts the same cart a
    second time and alerts nothing. *)
Lemma second_checkout_is_posted :
  in_flight (step (start one_widget) click_checkout)
  = [checkoutData_of one_widget] /\
  step (step (start one_widget) click_checkout) click_checkout
  = mkWorld one_widget
            [checkoutData_of one_widget; checkoutData_of one_widget]
            [axios_post checkout_url (checkoutData_of one_widget);
             axios_post checkout_url (checkoutData_of one_widget)].
Proof. split; reflexivity. Qed.

(** ** Barcode lookup *)

Example trim_scanned_code : trim "  4006381333931 " = "4006381333931".
Proof. reflexivity. Qed.

Example blank_input_requests_nothing :
  searchByBarcode_request (setBarcodeInput "   " initial) = None.
Proof. reflexivity. Qed.

Example unknown_code_requested :
  searchByBarcode_request (setBarcodeInput "UNKNOWN" initial)
  = Some "http://localhost:8000/products/UNKNOWN".
Proof. reflexivity. Qed.

(** An unknown code answered with 404: one alert, the cart as before. *)
Example unknown_code_not_found :
  searchByBarcode
    (fun _ => rejected (AxiosError (Some (AxiosResponse.mk 404 (Some "Product not found")))
                                   "Request failed with status code 404"))
    (setBarcodeInput "UNKNOWN" one_widget)
  = (setBarcodeInput "UNKNOWN" one_widget,
     [axios_get "http://localhost:8000/products/UNKNOWN";
      alert "Product not found!";
      console_error "Barcode search error:"
        (AxiosError (Some (AxiosResponse.mk 404 (Some "Product not found")))
                    "Request failed with status code 404")]).
Proof. reflexivity. Qed.


(** A failed lookup leaves the state as it was, whatever was caught. *)
Lemma searchByBarcode_settle_rejected (st : POS) (error : thrown) :
  searchByBarcode_settle st (rejected error)
  = (st, [alert (search_error_message error);
          console_error "Barcode search error:" error]).
Proof. reflexivity. Qed.



(** ** What a confirmed checkout leaves in place *)

(** C10. When the invoice arrives only the cart is emptied (and the
    receipt shown): catalog, customer name, payment method and barcode
    input stay as they are, so a customer name typed for one sale is still
    there for the next and is not put back to 'Walk-in Customer'. *)
Theorem confirmed_checkout_keeps_customer_and_payment
  (st : POS) (invoice : Invoice.t) :
  let after := fst (processCheckout_settle st (resolved invoice)) in
  after
  = mkPOS (products st) [] (customerName st) (paymentMethod st)
          (barcodeInput st) true (Some invoice) /\
  cart after = [] /\
  customerName after = customerName st /\
  paymentMethod after = paymentMethod st /\
  pos (run (start initial)
           [type_customerName "Alice"; select_paymentMethod "card";
            click_product widget_A; click_checkout;
            checkout_settles (resolved invoice)])
  = mkPOS [] [] "Alice" "card" "" true (Some invoice).
Proof. repeat split. Qed.

(** * Further properties of the sale screen *)

(** ** Cart store: frame, round trips, units *)

Section CartFrame.

Variable productId : Z.

Lemma line_of_app (c c' : list CartItem.t) :
  line_of productId (c ++ c')
  = match line_of productId c with
    | Some line => Some line
    | None => line_of productId c'
    end.
Proof.
  unfold line_of. induction c as [| x c IH]; simpl; [reflexivity |].
  now destruct (has_id productId x).
Qed.

Lemma line_of_without_other (c : list CartItem.t) (j : Z) :
  j <> productId ->
  line_of j (filter (fun item => negb (has_id productId item)) c) = line_of j c.
Proof.
  intros Hj. unfold line_of. induction c as [| x c IH]; simpl; [reflexivity |].
  destruct (has_id productId x) eqn:E; simpl.
  - destruct (has_id j x) eqn:E'; [| exact IH].
    unfold has_id in E, E'. apply Z.eqb_eq in E, E'. congruence.
  - now rewrite IH.
Qed.

Lemma without_absent_id (c : list CartItem.t) :
  ~ In productId (ids c) ->
  filter (fun item => negb (has_id productId item)) c = c.
Proof.
  induction c as [| x c IH]; simpl; intros H; [reflexivity |].
  unfold has_id at 1.
  destruct (Z.eqb_spec (CartItem.product_id x) productId) as [E | _]; simpl.
  - exfalso. apply H. now left.
  - f_equal. apply IH. intros Hin. apply H. now right.
Qed.

(** In a cart with distinct ids the line of a product is its only line. *)
Lemma only_line (c : list CartItem.t) (line item : CartItem.t) :
  NoDup (ids c) ->
  line_of productId c = Some line ->
  In item c -> has_id productId item = true -> item = line.
Proof.
  unfold line_of. induction c as [| x c IH]; simpl; intros Hnd Hline Hin Hid;
    [contradiction |].
  inversion Hnd as [| ? ? Hx Hc]; subst.
  destruct (has_id productId x) eqn:E.
  - injection Hline as <-. destruct Hin as [<- | Hin]; [reflexivity |].
    exfalso. apply Hx. unfold has_id in E, Hid. apply Z.eqb_eq in E, Hid.
    rewrite E, <- Hid. now apply in_map.
  - destruct Hin as [<- | Hin]; [congruence | now apply IH].
Qed.

(** Setting the quantity of the product's lines, when there is one line. *)
Lemma set_only_line (f : CartItem.t -> Z) (c : list CartItem.t)
  (line : CartItem.t) :
  NoDup (ids c) ->
  line_of productId c = Some line ->
  map (fun item =>
         if has_id productId item
         then CartItem.with_quantity item (f item) else item) c
  = map (fun item =>
           if has_id productId item
           then CartItem.with_quantity line (f line) else item) c.
Proof.
  intros Hnd Hline. apply map_ext_in. intros item Hin.
  destruct (has_id productId item) eqn:E; [| reflexivity].
  now rewrite (only_line c line item Hnd Hline Hin E).
Qed.

Lemma units_set_line (q : Z) (c : list CartItem.t) (line : CartItem.t) :
  NoDup (ids c) ->
  line_of productId c = Some line ->
  units (map (fun item =>
                if has_id productId item
                then CartItem.with_quantity item q else item) c)
  = units c - CartItem.quantity line + q.
Proof.
  unfold line_of. induction c as [| x c IH]; simpl; intros Hnd Hline;
    [discriminate |].
  inversion Hnd as [| ? ? Hx Hc]; subst.
  destruct (has_id productId x) eqn:E.
  - injection Hline as <-.
    unfold has_id in E. apply Z.eqb_eq in E. rewrite E in Hx.
    rewrite (bump_absent productId (fun _ => q) c Hx). simpl. lia.
  - rewrite (IH Hc Hline). lia.
Qed.

Lemma units_without_line (c : list CartItem.t) (line : CartItem.t) :
  NoDup (ids c) ->
  line_of productId c = Some line ->
  units (filter (fun item => negb (has_id productId item)) c)
  = units c - CartItem.quantity line.
Proof.
  unfold line_of. induction c as [| x c IH]; simpl; intros Hnd Hline;
    [discriminate |].
  inversion Hnd as [| ? ? Hx Hc]; subst.
  destruct (has_id productId x) eqn:E; simpl.
  - injection Hline as <-.
    unfold has_id in E. apply Z.eqb_eq in E. rewrite E in Hx.
    rewrite (without_absent_id c Hx). lia.
  - rewrite (IH Hc Hline). lia.
Qed.

End CartFrame.

Lemma units_app (c c' : list CartItem.t) : units (c ++ c') = units c + units c'.
Proof.
  induction c as [| x c IH]; simpl; [reflexivity | rewrite IH; lia].
Qed.

Lemma with_own_quantity (item : CartItem.t) :
  CartItem.with_quantity item (CartItem.quantity item) = item.
Proof. now destruct item. Qed.

Lemma addToCart_last_same_id (c : list CartItem.t) (p : Product.t)
  (nm : string) (pr : float) (q : Z) :
  ~ In (Product.id p) (ids c) ->
  addToCart (c ++ [CartItem.mk (Product.id p) nm pr q]) p
  = c ++ [CartItem.mk (Product.id p) nm pr (q + 1)].
Proof.
  intros Hc.
  set (line := CartItem.mk (Product.id p) nm pr q).
  assert (Hfind : line_of (Product.id p) (c ++ [line]) = Some line).
  { rewrite line_of_app. apply line_of_None in Hc. rewrite Hc.
    unfold line_of, has_id. simpl. now rewrite Z.eqb_refl. }
  rewrite (addToCart_present _ _ _ Hfind), map_app.
  rewrite (bump_absent _ (fun item => CartItem.quantity item + 1) c Hc).
  simpl. unfold has_id. simpl. now rewrite Z.eqb_refl.
Qed.

Lemma addToCart_later_same_id (later : list Product.t) (c : list CartItem.t)
  (i : Z) (nm : string) (pr : float) (q : Z) :
  ~ In i (ids c) ->
  Forall (fun p' => Product.id p' = i) later ->
  fold_left addToCart later (c ++ [CartItem.mk i nm pr q])
  = c ++ [CartItem.mk i nm pr (q + Z.of_nat (List.length later))].
Proof.
  intros Hc. revert q.
  induction later as [| p' later IH]; intros q Hall; simpl.
  - now rewrite Z.add_0_r.
  - inversion Hall as [| ? ? Hp' Hlater]; subst.
    rewrite (addToCart_last_same_id c p' nm pr q Hc), (IH _ Hlater).
    do 3 f_equal. lia.
Qed.

(** X1. An operation on one product leaves the line of every other
    product as it is. *)
Theorem other_products_untouched (c : list CartItem.t) (p : Product.t)
  (productId change j : Z) :
  (j <> Product.id p -> line_of j (addToCart c p) = line_of j c) /\
  (j <> productId ->
   line_of j (updateQuantity c productId change) = line_of j c) /\
  (j <> productId -> line_of j (removeFromCart c productId) = line_of j c).
Proof.
  split; [| split].
  - intros Hj. destruct (line_of (Product.id p) c) as [line |] eqn:Hline.
    + rewrite (addToCart_present _ _ _ Hline).
      exact (line_of_bump_other (Product.id p)
               (fun item => CartItem.quantity item + 1) c j Hj).
    + rewrite (addToCart_absent _ _ Hline), line_of_app.
      destruct (line_of j c); [reflexivity |].
      unfold line_of, has_id. simpl.
      destruct (Z.eqb_spec (Product.id p) j); [congruence | reflexivity].
  - intros Hj. destruct (line_of productId c) as [line |] eqn:Hline.
    + destruct (Z_le_gt_dec (CartItem.quantity line + change) 0) as [Hle | Hgt].
      * rewrite (updateQuantity_removes _ _ _ _ Hline Hle).
        now apply line_of_without_other.
      * rewrite (updateQuantity_sets c productId change line Hline ltac:(lia)).
        exact (line_of_bump_other productId
                 (fun _ => CartItem.quantity line + change) c j Hj).
    + now rewrite (updateQuantity_no_line _ _ _ Hline).
  - intros Hj. now apply line_of_without_other.
Qed.

(** X2. In a well-formed cart, taking one unit off right after adding a
    product gives the cart back, whether the product had a line or not;
    so does one unit up and one down on any product id. *)
Theorem add_then_decrement_restores (c : list CartItem.t) (p : Product.t) :
  well_formed c ->
  updateQuantity (addToCart c p) (Product.id p) (-1) = c /\
  (forall productId,
      updateQuantity (updateQuantity c productId 1) productId (-1) = c).
Proof.
  intros [Hnd Hq].
  assert (Hup : forall productId line,
             line_of productId c = Some line ->
             updateQuantity
               (map (fun item =>
                       if has_id productId item
                       then CartItem.with_quantity item (CartItem.quantity line + 1)
                       else item) c)
               productId (-1) = c).
  { intros productId line Hline.
    pose proof (line_of_bump productId (fun _ => CartItem.quantity line + 1)
                  c line Hline) as Hline'.
    cbv beta in Hline'.
    destruct (line_of_Some _ _ _ Hline) as [Hin _].
    unfold quantities_positive in Hq. rewrite Forall_forall in Hq.
    specialize (Hq line Hin).
    rewrite (updateQuantity_sets _ productId (-1) _ Hline')
      by (simpl; lia).
    rewrite map_map. rewrite <- (map_id c) at 2.
    apply map_ext_in. intros item Hitem.
    destruct (has_id productId item) eqn:E.
    - change (has_id productId (CartItem.with_quantity item
                                  (CartItem.quantity line + 1)))
        with (has_id productId item).
      rewrite E.
      rewrite (only_line productId c line item Hnd Hline Hitem E).
      destruct line. unfold CartItem.with_quantity. simpl. f_equal. lia.
    - now rewrite E. }
  split.
  - destruct (line_of (Product.id p) c) as [line |] eqn:Hline.
    + rewrite (addToCart_present _ _ _ Hline),
        (set_only_line (Product.id p)
           (fun item => CartItem.quantity item + 1) c line Hnd Hline).
      rewrite <- (set_only_line (Product.id p)
                    (fun _ => CartItem.quantity line + 1) c line Hnd Hline).
      now apply Hup.
    + rewrite (addToCart_absent _ _ Hline).
      set (new := CartItem.mk (Product.id p) (Product.name p)
                              (Product.price p) 1).
      apply line_of_None in Hline.
      assert (Hnew : line_of (Product.id p) (c ++ [new]) = Some new).
      { rewrite line_of_app.
        rewrite (proj2 (line_of_None (Product.id p) c) Hline).
        unfold line_of, has_id. simpl. now rewrite Z.eqb_refl. }
      rewrite (updateQuantity_removes _ _ (-1) _ Hnew) by (simpl; lia).
      rewrite filter_app, (without_absent_id _ c Hline). simpl.
      unfold has_id. simpl. rewrite Z.eqb_refl. simpl. apply app_nil_r.
  - intros productId. destruct (line_of productId c) as [line |] eqn:Hline.
    + destruct (line_of_Some _ _ _ Hline) as [Hin _].
      unfold quantities_positive in Hq. rewrite Forall_forall in Hq.
      specialize (Hq line Hin).
      rewrite (updateQuantity_sets c productId 1 line Hline ltac:(lia)).
      now apply Hup.
    + now rewrite !(updateQuantity_no_line _ _ _ Hline).
Qed.

Lemma add_then_decrement_restores_witness :
  well_formed (cart one_widget) /\
  updateQuantity (addToCart (cart one_widget) widget_B) 2 (-1) = cart one_widget.
Proof.
  assert (H : well_formed (cart one_widget)).
  { split.
    - apply NoDup_cons; [intros [] | apply NoDup_nil].
    - apply Forall_cons; [simpl; lia | apply Forall_nil]. }
  split; [exact H |].
  exact (proj1 (add_then_decrement_restores (cart one_widget) widget_B H)).
Defined.

(** X3. For a product that has a line in a well-formed cart, clicking the
    product and clicking the plus button of its line do the same. *)
Theorem product_click_is_plus_button (c : list CartItem.t) (p : Product.t) :
  well_formed c ->
  line_of (Product.id p) c <> None ->
  addToCart c p = updateQuantity c (Product.id p) 1.
Proof.
  intros [Hnd Hq] Hsome.
  destruct (line_of (Product.id p) c) as [line |] eqn:Hline; [| congruence].
  destruct (line_of_Some _ _ _ Hline) as [Hin _].
  unfold quantities_positive in Hq. rewrite Forall_forall in Hq.
  specialize (Hq line Hin).
  rewrite (addToCart_present _ _ _ Hline).
  rewrite (updateQuantity_sets c (Product.id p) 1 line Hline ltac:(lia)).
  rewrite (set_only_line (Product.id p)
             (fun item => CartItem.quantity item + 1) c line Hnd Hline).
  now rewrite <- (set_only_line (Product.id p)
                    (fun _ => CartItem.quantity line + 1) c line Hnd Hline).
Qed.

Lemma product_click_is_plus_button_witness :
  well_formed (cart one_widget) /\
  line_of (Product.id widget_A) (cart one_widget) <> None /\
  addToCart (cart one_widget) widget_A = updateQuantity (cart one_widget) 1 1.
Proof.
  assert (H : well_formed (cart one_widget)).
  { split.
    - apply NoDup_cons; [intros [] | apply NoDup_nil].
    - apply Forall_cons; [simpl; lia | apply Forall_nil]. }
  assert (H' : line_of (Product.id widget_A) (cart one_widget) <> None)
    by discriminate.
  split; [exact H |]. split; [exact H' |].
  exact (product_click_is_plus_button (cart one_widget) widget_A H H').
Defined.

Lemma units_at_least_lines (c : list CartItem.t) :
  quantities_positive c -> Z.of_nat (List.length c) <= units c.
Proof.
  unfold quantities_positive. induction 1 as [| x c Hx Hc IH]; simpl units.
  - simpl. lia.
  - rewrite length_cons, Nat2Z.inj_succ. lia.
Qed.

(** X4. Units are accounted for exactly in a well-formed cart: adding a
    product adds one unit; changing a quantity adds [change] units, or
    takes the whole line off when the quantity would fall to 0 or less;
    removing takes the line's units off; and there is at least one unit
    per line. *)
Theorem units_accounting (c : list CartItem.t) :
  well_formed c ->
  (forall p, units (addToCart c p) = units c + 1) /\
  (forall productId change,
      units (updateQuantity c productId change)
      = match line_of productId c with
        | None => units c
        | Some line =>
            if CartItem.quantity line + change <=? 0
            then units c - CartItem.quantity line
            else units c + change
        end) /\
  (forall productId,
      units (removeFromCart c productId)
      = match line_of productId c with
        | None => units c
        | Some line => units c - CartItem.quantity line
        end) /\
  Z.of_nat (List.length c) <= units c.
Proof.
  intros [Hnd Hq]. split; [| split; [| split]].
  - intros p. destruct (line_of (Product.id p) c) as [line |] eqn:Hline.
    + rewrite (addToCart_present _ _ _ Hline).
      rewrite (set_only_line (Product.id p)
                 (fun item => CartItem.quantity item + 1) c line Hnd Hline).
      rewrite <- (set_only_line (Product.id p)
                    (fun _ => CartItem.quantity line + 1) c line Hnd Hline).
      rewrite (units_set_line (Product.id p) _ c line Hnd Hline). lia.
    + rewrite (addToCart_absent _ _ Hline), units_app. simpl. lia.
  - intros productId change.
    destruct (line_of productId c) as [line |] eqn:Hline.
    + destruct (Z.leb_spec (CartItem.quantity line + change) 0) as [Hle | Hgt].
      * rewrite (updateQuantity_removes _ _ _ _ Hline Hle).
        now apply units_without_line.
      * rewrite (updateQuantity_sets c productId change line Hline Hgt).
        rewrite (units_set_line productId _ c line Hnd Hline). lia.
    + now rewrite (updateQuantity_no_line _ _ _ Hline).
  - intros productId. unfold removeFromCart.
    destruct (line_of productId c) as [line |] eqn:Hline.
    + now apply units_without_line.
    + apply line_of_None in Hline. now rewrite (without_absent_id _ c Hline).
  - now apply units_at_least_lines.
Qed.

Lemma units_accounting_witness :
  well_formed (cart one_widget) /\
  units (addToCart (cart one_widget) widget_B) = units (cart one_widget) + 1.
Proof.
  assert (H : well_formed (cart one_widget)).
  { split.
    - apply NoDup_cons; [intros [] | apply NoDup_nil].
    - apply Forall_cons; [simpl; lia | apply Forall_nil]. }
  split; [exact H |].
  exact (proj1 (units_accounting (cart one_widget) H) widget_B).
Defined.

(** X5. [removeFromCart] leaves no line for the product, does nothing when
    there is none, does nothing more when repeated, and is what
    [updateQuantity] does once the quantity would fall to 0 or less. *)
Theorem removeFromCart_removes_once (c : list CartItem.t) (productId : Z) :
  line_of productId (removeFromCart c productId) = None /\
  (line_of productId c = None -> removeFromCart c productId = c) /\
  removeFromCart (removeFromCart c productId) productId
  = removeFromCart c productId /\
  (forall line change,
      line_of productId c = Some line ->
      CartItem.quantity line + change <= 0 ->
      updateQuantity c productId change = removeFromCart c productId).
Proof.
  unfold removeFromCart. split; [| split; [| split]].
  - apply line_of_None, without_absent.
  - intros Hnone. apply without_absent_id. now apply line_of_None.
  - apply without_absent_id, without_absent.
  - intros line change Hline Hle.
    exact (updateQuantity_removes _ _ _ _ Hline Hle).
Qed.

(** X6. The name and price of a line are those of the product record that
    created it: when a product without a line is added and then added
    again any number of times, under records that share its id but may
    differ in name, price or stock, the cart ends with one line carrying
    the first record's name and price and the number of additions. *)
Theorem first_add_fixes_name_and_price (c : list CartItem.t) (p : Product.t)
  (later : list Product.t) :
  line_of (Product.id p) c = None ->
  Forall (fun p' => Product.id p' = Product.id p) later ->
  fold_left addToCart (p :: later) c
  = c ++ [CartItem.mk (Product.id p) (Product.name p) (Product.price p)
                      (Z.of_nat (S (List.length later)))].
Proof.
  intros Hnone Hlater. simpl fold_left.
  rewrite (addToCart_absent _ _ Hnone). apply line_of_None in Hnone.
  rewrite (addToCart_later_same_id later c _ _ _ 1 Hnone Hlater).
  do 3 f_equal. lia.
Qed.

Lemma first_add_fixes_name_and_price_witness :
  line_of (Product.id widget_A) [] = None /\
  Forall (fun p' => Product.id p' = Product.id widget_A)
         [Product.mk 1 "Widget A+" 12.5%float 6 None "2024-02-01T00:00:00"] /\
  fold_left addToCart
    [widget_A; Product.mk 1 "Widget A+" 12.5%float 6 None "2024-02-01T00:00:00"]
    []
  = [CartItem.mk 1 "Widget A" 10.00%float 2].
Proof.
  assert (H : Forall (fun p' => Product.id p' = Product.id widget_A)
                [Product.mk 1 "Widget A+" 12.5%float 6 None
                            "2024-02-01T00:00:00"])
    by (apply Forall_cons; [reflexivity | apply Forall_nil]).
  split; [reflexivity |]. split; [exact H |].
  exact (first_add_fixes_name_and_price [] widget_A _ eq_refl H).
Defined.

(** ** Barcode field *)

Lemma white_space2_not_1 (a b : ascii) :
  white_space2 a b = true -> white_space1 a = false.
Proof.
  unfold white_space2, white_space1. intros H.
  apply andb_prop in H as [H _]. apply N.eqb_eq in H. now rewrite H.
Qed.

Lemma white_space3_not_1 (a b c : ascii) :
  white_space3 a b c = true -> white_space1 a = false.
Proof.
  unfold white_space3, white_space1. cbv zeta. intros H.
  destruct (N.eqb_spec (N_of_ascii a) 225) as [-> | _]; [reflexivity |].
  destruct (N.eqb_spec (N_of_ascii a) 226) as [-> | _]; [reflexivity |].
  destruct (N.eqb_spec (N_of_ascii a) 227) as [-> | _]; [reflexivity |].
  destruct (N.eqb_spec (N_of_ascii a) 239) as [-> | _]; [reflexivity |].
  discriminate H.
Qed.

Lemma white_space3_not_2 (a b c : ascii) :
  white_space3 a b c = true -> white_space2 a b = false.
Proof.
  unfold white_space3, white_space2. cbv zeta. intros H.
  destruct (N.eqb_spec (N_of_ascii a) 225) as [-> | _]; [reflexivity |].
  destruct (N.eqb_spec (N_of_ascii a) 226) as [-> | _]; [reflexivity |].
  destruct (N.eqb_spec (N_of_ascii a) 227) as [-> | _]; [reflexivity |].
  destruct (N.eqb_spec (N_of_ascii a) 239) as [-> | _]; [reflexivity |].
  discriminate H.
Qed.

Lemma trimStart_Blank (s : string) : Blank s -> trimStart s = "".
Proof.
  induction 1 as [| a s Ha _ IH | a b s Hab _ IH | a b c s Habc _ IH].
  - reflexivity.
  - simpl. now rewrite Ha.
  - simpl. now rewrite (white_space2_not_1 a b Hab), Hab.
  - simpl.
    now rewrite (white_space3_not_1 a b c Habc), (white_space3_not_2 a b c Habc),
      Habc.
Qed.

Lemma Blank_trimStart (n : nat) :
  forall s, (String.length s <= n)%nat -> Blank (trimStart s) -> Blank s.
Proof.
  induction n as [| n IH]; intros s Hn.
  - destruct s; [trivial | simpl in Hn; lia].
  - destruct s as [| a [| b [| c s3]]]; simpl in *; trivial.
    + destruct (white_space1 a) eqn:Ha; [| trivial].
      intros _. apply Blank_1; [exact Ha | constructor].
    + destruct (white_space1 a) eqn:Ha.
      * intros H. apply Blank_1; [exact Ha |]. apply IH; [simpl; lia | exact H].
      * destruct (white_space2 a b) eqn:Hab; [| trivial].
        intros _. apply Blank_2; [exact Hab | constructor].
    + destruct (white_space1 a) eqn:Ha.
      * intros H. apply Blank_1; [exact Ha |]. apply IH; [simpl; lia | exact H].
      * destruct (white_space2 a b) eqn:Hab.
        -- intros H. apply Blank_2; [exact Hab |].
           apply IH; [simpl; lia | exact H].
        -- destruct (white_space3 a b c) eqn:Habc; [| trivial].
           intros H. apply Blank_3; [exact Habc |].
           apply IH; [lia | exact H].
Qed.

Lemma trimEnd_reversed_empty (n : nat) :
  forall r acc,
    (String.length r <= n)%nat ->
    trimEnd_reversed r = "" -> Blank acc -> Blank (reverse acc r).
Proof.
  induction n as [| n IH]; intros r acc Hn.
  - destruct r; [trivial | simpl in Hn; lia].
  - destruct r as [| a [| b [| c r3]]]; simpl in *; trivial.
    + destruct (white_space1 a) eqn:Ha; [| discriminate].
      intros _ Hacc. now apply Blank_1.
    + destruct (white_space1 a) eqn:Ha.
      * intros H Hacc.
        apply (IH (String b "") (String a acc)); [simpl; lia | exact H |].
        now apply Blank_1.
      * destruct (white_space2 b a) eqn:Hba; [| discriminate].
        intros _ Hacc. now apply Blank_2.
    + destruct (white_space1 a) eqn:Ha.
      * intros H Hacc.
        apply (IH (String b (String c r3)) (String a acc));
          [simpl; lia | exact H | now apply Blank_1].
      * destruct (white_space2 b a) eqn:Hba.
        -- intros H Hacc.
           apply (IH (String c r3) (String b (String a acc)));
             [simpl; lia | exact H | now apply Blank_2].
        -- destruct (white_space3 c b a) eqn:Hcba; [| discriminate].
           intros H Hacc.
           apply (IH r3 (String c (String b (String a acc))));
             [lia | exact H | now apply Blank_3].
Qed.

Lemma reverse_empty (s : string) :
  forall acc, reverse acc s = "" -> s = "" /\ acc = "".
Proof.
  induction s as [| c s IH]; intros acc H; simpl in H; [now split |].
  destruct (IH _ H) as [_ [=]].
Qed.

Lemma reverse_reverse (s : string) :
  forall a b, reverse a (reverse b s) = reverse (s ++ a)%string b.
Proof.
  induction s as [| c s IH]; intros a b; simpl; [reflexivity |].
  now rewrite IH.
Qed.

Lemma append_empty (s : string) : (s ++ "")%string = s.
Proof. induction s as [| c s IH]; simpl; [reflexivity | now rewrite IH]. Qed.

Lemma trim_Blank (s : string) : trim s = "" <-> Blank s.
Proof.
  unfold trim. split.
  - intros H. apply reverse_empty in H as [H _].
    apply (Blank_trimStart (String.length s) s (le_n _)).
    rewrite <- (append_empty (trimStart s)).
    change (trimStart s ++ "")%string
      with (reverse (trimStart s ++ "")%string "").
    rewrite <- reverse_reverse.
    apply (trimEnd_reversed_empty _ _ "" (le_n _) H). constructor.
  - intros H. now rewrite (trimStart_Blank s H).
Qed.

Lemma searchByBarcode_request_Blank (st : POS) :
  searchByBarcode_request st = None <-> Blank (barcodeInput st).
Proof.
  unfold searchByBarcode_request, truthy. rewrite negb_involutive.
  rewrite <- trim_Blank.
  destruct (String.eqb_spec (trim (barcodeInput st)) "") as [H | H].
  - tauto.
  - split; [discriminate | contradiction].
Qed.

Example no_break_space_is_blank :
  searchByBarcode_request (setBarcodeInput (bytes [194; 160]%N) initial) = None.
Proof. reflexivity. Qed.

Example byte_order_mark_is_blank :
  searchByBarcode_request
    (setBarcodeInput (bytes [32; 239; 187; 191; 9; 226; 128; 168]%N) initial)
  = None.
Proof. reflexivity. Qed.

Example trim_keeps_inner_space :
  trim (bytes [194; 160; 65; 32; 66; 227; 128; 128; 10]%N) = "A B".
Proof. reflexivity. Qed.

(** X7. A barcode search sends a request exactly when the input is not
    made of white space and line terminators only, and then asks for the
    input as typed, surrounding white space included.  A blank input
    changes nothing and performs no effect.  After a lookup that found a
    product the input is empty, so a repeated search sends nothing. *)
Theorem searchByBarcode_sends_unless_blank
  (backend : string -> settled Product.t) (st : POS) :
  (searchByBarcode_request st = None <-> Blank (barcodeInput st)) /\
  (forall url,
      searchByBarcode_request st = Some url ->
      url = ("http://localhost:8000/products/" ++ barcodeInput st)%string) /\
  (Blank (barcodeInput st) -> searchByBarcode backend st = (st, [])) /\
  (forall product,
      ~ Blank (barcodeInput st) ->
      backend ("http://localhost:8000/products/" ++ barcodeInput st)%string
      = resolved product ->
      let after := fst (searchByBarcode backend st) in
      cart after = addToCart (cart st) product /\
      barcodeInput after = "" /\
      snd (searchByBarcode backend st)
      = [axios_get ("http://localhost:8000/products/" ++ barcodeInput st)%string;
         focus_barcode] /\
      (forall backend', searchByBarcode backend' after = (after, []))).
Proof.
  split; [apply searchByBarcode_request_Blank |]. split; [| split].
  - unfold searchByBarcode_request. intros url.
    destruct (negb (truthy (trim (barcodeInput st)))); [discriminate |].
    now intros [= <-].
  - intros H. apply searchByBarcode_request_Blank in H.
    unfold searchByBarcode. now rewrite H.
  - intros product H Hb after.
    assert (Hreq : searchByBarcode_request st
                   = Some ("http://localhost:8000/products/"
                           ++ barcodeInput st)%string).
    { unfold searchByBarcode_request.
      destruct (negb (truthy (trim (barcodeInput st)))) eqn:E; [| reflexivity].
      exfalso. apply H. apply searchByBarcode_request_Blank.
      unfold searchByBarcode_request. now rewrite E. }
    unfold after, searchByBarcode. rewrite Hreq, Hb. simpl. repeat split.
Qed.

(** ** The sale screen *)

Lemma begin_search_shown (s : Screen) : shown (begin_search s) = shown s.
Proof.
  unfold begin_search, shown.
  now destruct (searchByBarcode_request (pos (world s))).
Qed.

Lemma handleBarcodeKeyPress_shown (key : string) (s : Screen) :
  shown (handleBarcodeKeyPress key s) = shown s.
Proof.
  unfold handleBarcodeKeyPress.
  destruct (key =? "Enter")%string; [apply begin_search_shown | reflexivity].
Qed.

(** An invariant of the component state that every step of the sale, every
    lookup result and every change of the other cells keeps is kept by
    every run of the screen. *)
Section ScreenInvariant.

Variable Inv : POS -> Prop.

Hypothesis Inv_step : forall w e, Inv (pos w) -> Inv (pos (step w e)).
Hypothesis Inv_found :
  forall st product,
    Inv st ->
    Inv (setBarcodeInput "" (setCart (fun c => addToCart c product) st)).
Hypothesis Inv_barcode : forall st v, Inv st -> Inv (setBarcodeInput v st).
Hypothesis Inv_products : forall st v, Inv st -> Inv (setProducts v st).
Hypothesis Inv_close : forall st, Inv st -> Inv (setShowReceipt false st).

Lemma ui_step_invariant (s : Screen) (e : ui_event) :
  Inv (shown s) -> Inv (shown (ui_step s e)).
Proof.
  intros H. destruct e; simpl.
  - exact H.
  - now apply Inv_step.
  - now apply Inv_barcode.
  - now rewrite handleBarcodeKeyPress_shown.
  - now rewrite begin_search_shown.
  - destruct (lookups s); [exact H |].
    destruct r; simpl; [now apply Inv_found | exact H].
  - destruct (loads s); [exact H |].
    destruct r; simpl; [now apply Inv_products | exact H].
  - now apply Inv_close.
Qed.

Lemma ui_run_invariant (events : list ui_event) (s : Screen) :
  Inv (shown s) -> Inv (shown (ui_run s events)).
Proof.
  revert s. induction events as [| e events IH]; intros s H; simpl.
  - exact H.
  - apply IH. now apply ui_step_invariant.
Qed.

End ScreenInvariant.

(** X8. The cart stays well formed through every run of the sale screen:
    clicks, quantity changes, removals, clears, barcode lookups that find
    or miss a product, catalog loads, checkouts and their results. *)
Theorem screen_keeps_cart_well_formed (s : Screen) (events : list ui_event) :
  well_formed (cart (shown s)) ->
  well_formed (cart (shown (ui_run s events))).
Proof.
  apply (ui_run_invariant (fun st => well_formed (cart st))).
  - intros w e. apply step_well_formed.
  - intros st product H. simpl. now apply addToCart_well_formed.
  - intros st v H. exact H.
  - intros st v H. exact H.
  - intros st H. exact H.
Qed.

Lemma screen_keeps_cart_well_formed_witness :
  well_formed (cart (shown opened)) /\
  well_formed
    (cart (shown (ui_run opened
                    [mount; type_barcode "A-0001"; press_key "Enter";
                     lookup_settles (resolved widget_A);
                     sale (click_product widget_A);
                     sale (click_quantity 1 (-1))]))).
Proof.
  assert (H : well_formed (cart (shown opened)))
    by (split; [apply NoDup_nil | apply Forall_nil]).
  split; [exact H |].
  exact (screen_keeps_cart_well_formed opened _ H).
Defined.



Lemma last_after (v d : string) (l : list string) :
  last (v :: l) d = last l v.
Proof.
  revert v d. induction l as [| x l IH]; intros v d; [reflexivity |].
  change (last (v :: x :: l) d) with (last (x :: l) d).
  now rewrite (IH x d), (IH x v).
Qed.

Lemma ui_step_customerName (s : Screen) (e : ui_event) :
  customerName (shown (ui_step s e))
  = match e with
    | sale (type_customerName v) => v
    | _ => customerName (shown s)
    end.
Proof.
  destruct e as [| e | | | | r | r |]; simpl; try reflexivity.
  - destruct e as [| | | | | | | r]; simpl; try reflexivity.
    + unfold shown. simpl. now destruct (processCheckout_request (pos (world s))).
    + unfold shown. simpl. destruct (in_flight (world s)); [reflexivity |].
      now destruct r.
  - now rewrite handleBarcodeKeyPress_shown.
  - now rewrite begin_search_shown.
  - destruct (lookups s); [reflexivity |]. now destruct r.
  - destruct (loads s); [reflexivity |]. now destruct r.
Qed.

Lemma ui_step_paymentMethod (s : Screen) (e : ui_event) :
  paymentMethod (shown (ui_step s e))
  = match e with
    | sale (select_paymentMethod v) => v
    | _ => paymentMethod (shown s)
    end.
Proof.
  destruct e as [| e | | | | r | r |]; simpl; try reflexivity.
  - destruct e as [| | | | | | | r]; simpl; try reflexivity.
    + unfold shown. simpl. now destruct (processCheckout_request (pos (world s))).
    + unfold shown. simpl. destruct (in_flight (world s)); [reflexivity |].
      now destruct r.
  - now rewrite handleBarcodeKeyPress_shown.
  - now rewrite begin_search_shown.
  - destruct (lookups s); [reflexivity |]. now destruct r.
  - destruct (loads s); [reflexivity |]. now destruct r.
Qed.

(** X10. Through every run of the sale screen the customer name is the
    one typed last, or the one at the start when none was typed, and
    likewise the payment method: no checkout, clear, lookup or catalog
    load sets either. *)
Theorem customer_and_payment_follow_input (events : list ui_event) (s : Screen) :
  customerName (shown (ui_run s events))
  = last (names_typed events) (customerName (shown s)) /\
  paymentMethod (shown (ui_run s events))
  = last (methods_selected events) (paymentMethod (shown s)).
Proof.
  revert s. induction events as [| e events IH]; intros s;
    [split; reflexivity |].
  change (ui_run s (e :: events)) with (ui_run (ui_step s e) events).
  destruct (IH (ui_step s e)) as [Hn Hm].
  rewrite Hn, Hm, ui_step_customerName, ui_step_paymentMethod.
  destruct e as [| e | | | | | |]; try (split; reflexivity).
  destruct e; try (split; reflexivity).
  - split; [| reflexivity]. simpl names_typed. now rewrite last_after.
  - split; [reflexivity |]. simpl methods_selected. now rewrite last_after.
Qed.

Lemma posts_have_lines_app (effects effects' : list effect) :
  posts_have_lines effects -> posts_have_lines effects' ->
  posts_have_lines (effects ++ effects').
Proof. intros H H'. apply Forall_app. now split. Qed.

Lemma step_requests_have_lines (w : World) (e : event) :
  requests_have_lines w -> requests_have_lines (step w e).
Proof.
  intros [Hlog Hfl]. destruct e; simpl; try (split; assumption).
  - split; [| exact Hfl]. apply posts_have_lines_app; [exact Hlog |].
    destruct (0 <? List.length (cart (pos w)))%nat; repeat constructor.
  - unfold processCheckout_request.
    destruct (cart (pos w)) as [| x c] eqn:E; simpl.
    + split; [| now rewrite app_nil_r].
      apply posts_have_lines_app; [exact Hlog | repeat constructor].
    + split.
      * apply posts_have_lines_app; [exact Hlog |].
        repeat constructor. simpl. discriminate.
      * apply Forall_app. split; [exact Hfl |].
        repeat constructor. simpl. discriminate.
  - destruct (in_flight w) as [| d rest] eqn:E; [split; [exact Hlog | now rewrite E] |].
    inversion Hfl as [| ? ? _ Hrest]; subst.
    destruct r; simpl; (split; [| exact Hrest]);
      (apply posts_have_lines_app; [exact Hlog | repeat constructor]).
Qed.

Lemma ui_step_requests_have_lines (s : Screen) (e : ui_event) :
  requests_have_lines (world s) -> requests_have_lines (world (ui_step s e)).
Proof.
  intros H. pose proof H as [Hlog Hfl].
  assert (Hsearch : requests_have_lines (world (begin_search s))).
  { unfold begin_search.
    destruct (searchByBarcode_request (pos (world s))); [| exact H].
    split; [| exact Hfl].
    apply posts_have_lines_app; [exact Hlog | repeat constructor]. }
  destruct e; simpl; try exact H.
  - split; [| exact Hfl].
    apply posts_have_lines_app; [exact Hlog | repeat constructor].
  - now apply step_requests_have_lines.
  - unfold handleBarcodeKeyPress.
    destruct (key =? "Enter")%string; [exact Hsearch | exact H].
  - exact Hsearch.
  - destruct (lookups s); [exact H |].
    destruct r; simpl; (split; [| exact Hfl]);
      (apply posts_have_lines_app; [exact Hlog | repeat constructor]).
  - destruct (loads s); [exact H |].
    destruct r; simpl; (split; [| exact Hfl]);
      (apply posts_have_lines_app; [exact Hlog | repeat constructor]).
Qed.

(** X11. The sale screen never sends a checkout without lines: through
    every run, each checkout request among the effects, and each one still
    in flight, carries a cart that is not empty. *)
Theorem checkout_requests_carry_lines (s : Screen) (events : list ui_event) :
  requests_have_lines (world s) ->
  requests_have_lines (world (ui_run s events)).
Proof.
  revert s. induction events as [| e events IH]; intros s H; simpl.
  - exact H.
  - apply IH. now apply ui_step_requests_have_lines.
Qed.

Lemma checkout_requests_carry_lines_witness :
  requests_have_lines (world opened) /\
  requests_have_lines
    (world (ui_run opened
              [sale click_checkout; sale (click_product widget_A);
               sale click_checkout; sale (click_remove 1);
               sale click_checkout])).
Proof.
  assert (H : requests_have_lines (world opened))
    by (split; [apply Forall_nil | apply Forall_nil]).
  split; [exact H |].
  exact (checkout_requests_carry_lines opened _ H).
Defined.

Lemma filter_requests_app (effects effects' : list effect) :
  filter is_request (effects ++ effects')
  = filter is_request effects ++ filter is_request effects'.
Proof. apply filter_app. Qed.

Lemma edit_keeps_requests (w : World) (e : event) :
  is_edit e = true ->
  in_flight (step w e) = in_flight w /\
  filter is_request (log (step w e)) = filter is_request (log w).
Proof.
  intros He. destruct e; simpl in *; try discriminate; try (split; reflexivity).
  split; [reflexivity |]. rewrite filter_requests_app.
  destruct (0 <? List.length (cart (pos w)))%nat; simpl; apply app_nil_r.
Qed.

Lemma edits_keep_requests (edits : list event) (w : World) :
  forallb is_edit edits = true ->
  in_flight (run w edits) = in_flight w /\
  filter is_request (log (run w edits)) = filter is_request (log w).
Proof.
  revert w. induction edits as [| e edits IH]; intros w H; simpl in *.
  - split; reflexivity.
  - apply andb_prop in H as [He Hedits].
    destruct (IH (step w e) Hedits) as [H1 H2].
    destruct (edit_keeps_requests w e He) as [H3 H4].
    split; congruence.
Qed.

(** X12. What is done to the cart while a checkout is in flight is neither
    sent nor kept.  From a cart that is not empty and with no request in
    flight, a click on checkout, any edits of the sale, and then the
    invoice: the only requests made are the one checkout, carrying the cart,
    name and payment method of the moment of the click, and the catalog
    reload; the cart ends empty whatever the edits put in it. *)
Theorem edits_in_flight_are_discarded (w : World) (edits : list event)
  (invoice : Invoice.t) :
  cart (pos w) <> [] ->
  in_flight w = [] ->
  forallb is_edit edits = true ->
  let w' := run w (click_checkout :: edits
                   ++ [checkout_settles (resolved invoice)]) in
  cart (pos w') = [] /\
  currentInvoice (pos w') = Some invoice /\
  in_flight w' = [] /\
  filter is_request (log w')
  = filter is_request (log w)
    ++ [axios_post checkout_url (checkoutData_of (pos w)); loadProducts_request].
Proof.
  intros Hc Hfl Hedits w'.
  pose proof (step_click_checkout w) as Hstep.
  destruct (List.length (cart (pos w)) =? 0)%nat eqn:E.
  { apply Nat.eqb_eq, length_zero_iff_nil in E. contradiction. }
  remember (step w click_checkout) as w1 eqn:Hw1.
  assert (Hin : in_flight w1 = [checkoutData_of (pos w)])
    by (rewrite Hstep; simpl; now rewrite Hfl).
  assert (Hlog : log w1
                 = log w ++ [axios_post checkout_url (checkoutData_of (pos w))])
    by now rewrite Hstep.
  destruct (edits_keep_requests edits w1 Hedits) as [H1 H2].
  rewrite Hin in H1. rewrite Hlog, filter_requests_app in H2. simpl in H2.
  remember (run w1 edits) as w2 eqn:Hw2.
  assert (Hw' : w' = step w2 (checkout_settles (resolved invoice))).
  { unfold w', run. simpl. rewrite fold_left_app. simpl. now subst. }
  rewrite Hw'. simpl. rewrite H1. simpl. repeat split.
  rewrite filter_requests_app, H2. simpl. now rewrite <- app_assoc.
Qed.

Lemma edits_in_flight_are_discarded_witness :
  cart (pos (start one_widget)) <> [] /\
  in_flight (start one_widget) = [] /\
  forallb is_edit [click_product widget_B; click_quantity 1 1] = true /\
  cart (pos (run (start one_widget)
                 [click_checkout; click_product widget_B; click_quantity 1 1;
                  checkout_settles (resolved invoice_1)])) = [].
Proof.
  assert (H : cart (pos (start one_widget)) <> []) by discriminate.
  split; [exact H |]. split; [reflexivity |]. split; [reflexivity |].
  exact (proj1 (edits_in_flight_are_discarded (start one_widget)
                  [click_product widget_B; click_quantity 1 1] invoice_1
                  H eq_refl eq_refl)).
Defined.

(** ** Back office *)

Lemma number_or_zero_is_number (x : float) :
  PrimFloat.is_nan (number_or x 0%float) = false.
Proof.
  unfold number_or.
  destruct (PrimFloat.is_zero x); simpl; [reflexivity |].
  destruct (PrimFloat.is_nan x) eqn:E; [reflexivity | exact E].
Qed.

Lemma handleInputChange_numbers (parseFloat : string -> float)
  (name value : string) (prev : ProductFormData.t) :
  PrimFloat.is_nan (ProductFormData.price prev) = false ->
  PrimFloat.is_nan (ProductFormData.stock prev) = false ->
  PrimFloat.is_nan
    (ProductFormData.price (handleInputChange parseFloat name value prev))
  = false /\
  PrimFloat.is_nan
    (ProductFormData.stock (handleInputChange parseFloat name value prev))
  = false.
Proof.
  intros Hp Hs. unfold handleInputChange.
  destruct (name =? "price")%string;
    [simpl; split; [apply number_or_zero_is_number | exact Hs] |].
  destruct (name =? "stock")%string;
    [simpl; split; [exact Hp | apply number_or_zero_is_number] |].
  destruct (name =? "name")%string; [simpl; now split |].
  destruct (name =? "barcode")%string; [simpl; now split | now split].
Qed.

(** X13. Whatever is typed into the product form, its price and stock are
    never NaN: an entry that [parseFloat] cannot read, or reads as zero,
    is stored as 0, and the other fields are not touched by a numeric
    entry. *)
Theorem typed_numbers_are_never_nan (parseFloat : string -> float)
  (changes : list (string * string)) (form : ProductFormData.t) :
  PrimFloat.is_nan (ProductFormData.price form) = false ->
  PrimFloat.is_nan (ProductFormData.stock form) = false ->
  PrimFloat.is_nan (ProductFormData.price (type_in parseFloat changes form))
  = false /\
  PrimFloat.is_nan (ProductFormData.stock (type_in parseFloat changes form))
  = false /\
  (forall value,
      PrimFloat.is_nan (parseFloat value) = true ->
      handleInputChange parseFloat "price" value form
      = ProductFormData.mk (ProductFormData.name form) 0%float
                           (ProductFormData.stock form)
                           (ProductFormData.barcode form) /\
      handleInputChange parseFloat "stock" value form
      = ProductFormData.mk (ProductFormData.name form)
                           (ProductFormData.price form) 0%float
                           (ProductFormData.barcode form)).
Proof.
  intros Hp Hs.
  assert (H : PrimFloat.is_nan
                (ProductFormData.price (type_in parseFloat changes form))
              = false /\
              PrimFloat.is_nan
                (ProductFormData.stock (type_in parseFloat changes form))
              = false).
  { revert form Hp Hs. unfold type_in.
    induction changes as [| [name value] changes IH]; intros form Hp Hs; simpl.
    - now split.
    - destruct (handleInputChange_numbers parseFloat name value form Hp Hs)
        as [Hp' Hs'].
      now apply IH. }
  destruct H as [H1 H2]. split; [exact H1 |]. split; [exact H2 |].
  intros value Hnan. unfold handleInputChange, number_or. simpl.
  rewrite Hnan, orb_true_r. now split.
Qed.

Lemma typed_numbers_are_never_nan_witness :
  PrimFloat.is_nan (ProductFormData.price blank_form) = false /\
  PrimFloat.is_nan (ProductFormData.stock blank_form) = false /\
  PrimFloat.is_nan
    (ProductFormData.price
       (type_in (fun _ => PrimFloat.nan)
                [("name", "Widget"); ("price", "abc")] blank_form))
  = false.
Proof.
  split; [reflexivity |]. split; [reflexivity |].
  exact (proj1 (typed_numbers_are_never_nan
                  (fun _ => PrimFloat.nan)
                  [("name", "Widget"); ("price", "abc")] blank_form
                  eq_refl eq_refl)).
Defined.

Lemma append_same_prefix (a s s' : string) :
  (a ++ s)%string = (a ++ s')%string -> s = s'.
Proof.
  induction a as [| c a IH]; simpl; intros H; [exact H |].
  injection H as H. now apply IH.
Qed.

Lemma string_of_Z_inj (i j : Z) : string_of_Z i = string_of_Z j -> i = j.
Proof.
  unfold string_of_Z. intros H. apply DecimalZ.to_int_inj.
  assert (Hnn : forall z, Z.to_int z <> Decimal.Pos Decimal.Nil /\
                          Z.to_int z <> Decimal.Neg Decimal.Nil).
  { intros [| q | q]; simpl; split; try discriminate;
      intros [= E]; now apply DecimalPos.Unsigned.to_uint_nonnil in E. }
  destruct (Hnn i) as [Hi1 Hi2]. destruct (Hnn j) as [Hj1 Hj2].
  apply (f_equal DecimalString.NilZero.int_of_string) in H.
  rewrite !DecimalString.NilZero.isi in H by assumption.
  now injection H.
Qed.

(** X14. The requests that update or delete address exactly what was
    chosen: the URL of a product, and that of an invoice, is a different
    one for every id.  A delete that is not confirmed sends nothing; a
    confirmed one sends the one request. *)
Theorem urls_identify_their_target (i j : Z) :
  (product_url i = product_url j -> i = j) /\
  (invoice_url i = invoice_url j -> i = j) /\
  handleDeleteProduct_request i false
  = [admin_confirm "Are you sure you want to delete this product?"] /\
  handleDeleteProduct_request i true
  = [admin_confirm "Are you sure you want to delete this product?";
     http_delete (product_url i)] /\
  handleDeleteInvoice_request i false
  = [admin_confirm "Are you sure you want to delete this invoice?"] /\
  handleDeleteInvoice_request i true
  = [admin_confirm "Are you sure you want to delete this invoice?";
     http_delete (invoice_url i)].
Proof.
  split; [| split; [| repeat split]].
  - unfold product_url. intros H.
    now apply append_same_prefix, append_same_prefix, string_of_Z_inj in H.
  - unfold invoice_url. intros H.
    now apply append_same_prefix, append_same_prefix, string_of_Z_inj in H.
Qed.

Example product_url_7 : product_url 7 = "http://localhost:8000/products/7".
Proof. reflexivity. Qed.

Lemma js_or_empty (a : option string) :
  js_or a "" = match a with Some s => s | None => "" end.
Proof.
  destruct a as [s |]; [| reflexivity]. unfold js_or, truthy.
  now destruct (String.eqb_spec s "") as [-> | _].
Qed.

(** X15. Editing a product and saving: the request is a PUT to the
    product's URL that carries the product's own name, price and stock and
    its barcode, the empty string when it has none.  When the save
    succeeds the dialog is closed and back to a blank form with nothing
    being edited, so the next submit creates a product; the data of the
    tab the submit came from is requested again.  When it fails the state
    is as before, so a retry sends the same request. *)
Theorem edit_then_save (tab : ActiveTab.t) (st : Admin.t) (product : Product.t) :
  let editing := handleEditProduct product st in
  handleProductSubmit_request editing
  = [prevent_default;
     http_put (product_url (Product.id product))
       (ProductFormData.mk
          (Product.name product) (Product.price product)
          (number_of_Z (Product.stock product))
          match Product.barcode product with Some b => b | None => "" end)] /\
  (forall saved,
      let after := fst (handleProductSubmit_settle tab editing (resolved saved)) in
      Admin.showProductModal after = false /\
      Admin.editingProduct after = None /\
      Admin.loading after = true /\
      handleProductSubmit_request after
      = [prevent_default;
         http_post "http://localhost:8000/products"
                   (ProductFormData.mk "" 0%float 0%float "")] /\
      snd (handleProductSubmit_settle tab editing (resolved saved))
      = [http_get
           match tab with
           | ActiveTab.dashboard =>
               "http://localhost:8000/admin/dashboard/stats"
           | ActiveTab.products => "http://localhost:8000/products"
           | ActiveTab.invoices => "http://localhost:8000/admin/invoices"
           end]) /\
  (forall error,
      fst (handleProductSubmit_settle tab editing (rejected error)) = editing /\
      snd (handleProductSubmit_settle tab editing (rejected error))
      = [admin_console_error "Error saving product:" error;
         admin_alert "Error saving product"]).
Proof.
  intros editing. split; [| split].
  - unfold editing, handleProductSubmit_request. simpl.
    now rewrite js_or_empty.
  - intros saved after. repeat split.
  - intros error. split; reflexivity.
Qed.
